(** * 2sub: ASR provider normalizers, option validation and polling

    A shallow embedding of the speech-recognition provider packages of
    the repository (ElevenLabs, JianYing, Bijian): the decoded JSON
    values the parsers consume, the canonical transcript records they
    produce, the option validators, the provider entry points and the
    task-query / poll steps of the acquisition workflows, followed by
    the properties the specification states about them. *)

From Stdlib Require Import ZArith List Bool Lia.
From Stdlib Require Import Floats.SpecFloat.
From stdpp Require Import base option strings gmap list pretty.

Local Open Scope string_scope.
Local Open Scope list_scope.
Local Open Scope Z_scope.

(** ** float64 and its conversion to int64 *)

(** Go's [float64] is IEEE 754 binary64.  It is embedded as the Standard
    Library's [spec_float] at precision 53 and maximal exponent 1024, so
    products are rounded exactly as the hardware rounds them. *)
Module Float64.

Definition prec : Z := 53.
Definition emax : Z := 1024.

Definition t : Type := spec_float.

(** An untyped integer constant used at type float64 ([1000], [4],
    [6000], [0]). *)
Definition of_Z (z : Z) : t := binary_normalize prec emax z 0 false.

(** The zero value of a float64 variable. *)
Definition zero : t := S754_zero false.

Definition mul (x y : t) : t := SFmul prec emax x y.
Definition div (x y : t) : t := SFdiv prec emax x y.

(** The float64 nearest to [n/d], for integers that are themselves
    float64 values: what decoding a decimal literal such as [0.4]
    (that is [4/10]) yields. *)
Definition of_ratio (n d : Z) : t := div (of_Z n) (of_Z d).

Definition eqb (x y : t) : bool := SFeqb x y.
Definition ltb (x y : t) : bool := SFltb x y.
Definition geb (x y : t) : bool :=
  match SFcompare x y with
  | Some Gt | Some Eq => true
  | _ => false
  end.

(** A value the decoder can produce: a canonical binary64 number. *)
Definition valid (x : t) : bool := valid_binary prec emax x.

(** JSON numbers are never NaN or infinite. *)
Definition is_finite (x : t) : bool :=
  match x with
  | S754_zero _ | S754_finite _ _ _ => true
  | _ => false
  end.

(** The exact value of a finite number is the fraction
    [numerator / denominator]. *)
Definition numerator (x : t) : Z :=
  match x with
  | S754_finite s m e => cond_Zopp s (Zpos m) * 2 ^ Z.max e 0
  | _ => 0
  end.

Definition denominator (x : t) : Z :=
  match x with
  | S754_finite _ _ e => 2 ^ Z.max (- e) 0
  | _ => 1
  end.

(** The integer part of a finite number, rounded toward zero. *)
Definition trunc (x : t) : option Z :=
  match x with
  | S754_zero _ => Some 0
  | S754_finite s m e => Some (cond_Zopp s (Z.shiftl (Zpos m) e))
  | S754_infinity _ | S754_nan => None
  end.

Definition min_int64 : Z := - 2 ^ 63.
Definition max_int64 : Z := 2 ^ 63 - 1.

Definition fits_int64 (z : Z) : bool := (min_int64 <=? z) && (z <=? max_int64).

(** What [int64(x)] yields when the integer part of [x] is not an
    int64.  The language leaves it to the implementation; this is the
    value amd64 produces.  No property below depends on the choice. *)
Definition int64_indefinite : Z := min_int64.

(** The conversion [int64(x)]. *)
Definition to_int64 (x : t) : Z :=
  match trunc x with
  | Some z => if fits_int64 z then z else int64_indefinite
  | None => int64_indefinite
  end.


End Float64.

(** ** Rounding, as arithmetic on integers *)

(** The vocabulary in which the rounding of a product is stated. *)

(** [rnq v u]: the quotient by [u] of the multiple of [u] nearest to
    [v], the even quotient on a tie. *)
Definition rnq (v u : Z) : Z :=
  let q := v / u in
  let r := v mod u in
  if 2 * r <? u then q
  else if u <? 2 * r then q + 1
  else if Z.even q then q else q + 1.

(** The number of bits [binary_round_aux] drops from a mantissa [m] at
    exponent [e]. *)
Definition shift64 (m e : Z) : Z := Z.max (fexp 53 1024 (Zdigits2 m + e) - e) 0.

(** The float64 with mantissa [m] at exponent [e], as the last step of
    [binary_round_aux] builds it. *)
Definition round_result (m e : Z) : spec_float :=
  match m with
  | Z0 => S754_zero false
  | Zpos mm => if e <=? 971 then S754_finite false mm e else S754_infinity false
  | Zneg _ => S754_nan
  end.

(** Values are counted in units of [2 ^ B], for an exponent [B] below
    every exponent in sight.  [ulp_exp B V] is the exponent, above [B],
    of the spacing of binary64 numbers around the value [V]. *)
Definition ulp_exp (B V : Z) : Z := Z.max (Z.log2 V + 1 - 53) (-1074 - B).

Definition round_val (B V : Z) : Z :=
  rnq V (2 ^ ulp_exp B V) * 2 ^ ulp_exp B V.


(** ** Decoded JSON *)

(** [encoding/json] decodes into [interface{}] as nil, bool, float64,
    string, [[]interface{}] and [map[string]interface{}]. *)
#[warnings="-register-all"]
Inductive JSON : Type :=
| JNull
| JBool (b : bool)
| JNum (f : Float64.t)
| JStr (s : string)
| JArr (l : list JSON)
| JObj (m : gmap string JSON).

(** The comma-ok type assertions [v.(string)], [v.(float64)],
    [v.([]interface{})] and [v.(map[string]interface{})] on the result
    of a map index; an absent key indexes to the nil interface, on which
    every assertion fails. *)
Definition as_string (v : option JSON) : option string :=
  match v with Some (JStr s) => Some s | _ => None end.

Definition as_float64 (v : option JSON) : option Float64.t :=
  match v with Some (JNum f) => Some f | _ => None end.

Definition as_array (v : option JSON) : option (list JSON) :=
  match v with Some (JArr l) => Some l | _ => None end.

Definition as_object (v : option JSON) : option (gmap string JSON) :=
  match v with Some (JObj m) => Some m | _ => None end.

(** [x, _ := v.(T)]: the zero value of [T] when the assertion fails. *)
Definition string_or_zero (v : option JSON) : string := default "" (as_string v).
Definition float64_or_zero (v : option JSON) : Float64.t :=
  default Float64.zero (as_float64 v).

(** ** Errors *)

(** What [ctx.Err()] returns once the context is done. *)
Inductive ctx_error : Type :=
| Canceled
| DeadlineExceeded.

(** The provider packages declare four error structs of one shape
    (ParseError, ValidationError, FetchError, APIError); a cause that
    is nil is [None].  The remaining constructors stand for
    [fmt.Errorf] values (without and with a wrapped cause), for
    [ctx.Err()] and for errors raised by the transport or by a
    decoder. *)
#[warnings="-register-all"]
Inductive error : Type :=
| ParseError (Message : string) (Err : option error)
| ValidationError (Field Message : string)
| FetchError (Step Message : string) (Err : option error)
| APIError (StatusCode : Z) (Response : string)
| Errorf (msg : string)
| ErrorfWrap (msg : string) (cause : error)
| ContextError (c : ctx_error)
| TransportError (msg : string).

Inductive result (A : Type) : Type :=
| Ok (a : A)
| Err (e : error).
Arguments Ok {A} a.
Arguments Err {A} e.

(** ** The canonical transcript model *)

Module Word.
Record t : Type := mk
  { Text : string; Start : Z; End : Z; SpeakerID : string }.
End Word.

Module Sentence.
Record t : Type := mk
  { Text : string; Start : Z; End : Z; SpeakerID : string }.
End Sentence.

Module StandardResult.
Record t : Type := mk
  { Text : string;
    Words : list Word.t;
    Sentences : list Sentence.t;
    Language : string }.
End StandardResult.

(** The word loop the three parsers share,
    [for _, wordRaw := range wordsRaw]: an entry that is not an object
    is skipped ([continue]); otherwise the word built from it is
    appended. *)
Definition collect_objects {A : Type} (build : gmap string JSON -> A)
    (wordsRaw : list JSON) (acc : list A) : list A :=
  fold_left
    (fun words wordRaw =>
       match as_object (Some wordRaw) with
       | None => words
       | Some word => words ++ [build word]
       end)
    wordsRaw acc.

(** [strings.Join(parts, "")]. *)
Definition join_empty (parts : list string) : string :=
  fold_right String.append "" parts.

(** ** Option values behind the [FetchOptions] interface *)

(** A [FetchOptions] interface value as a provider package sees it: the
    nil interface, a pointer to the package's own [Options] (possibly a
    nil pointer), or a value of any other type that has a [Validate]
    method. *)
Inductive FetchOptions (Own : Type) : Type :=
| NilInterface
| OwnPointer (p : option Own)
| OtherType (type_name : string).
Arguments NilInterface {Own}.
Arguments OwnPointer {Own} p.
Arguments OtherType {Own} type_name.

(** The comma-ok assertion of [opts] to a pointer to the package's own
    [Options]: the pointer and whether the dynamic type matched. *)
Definition assert_own {Own : Type} (opts : FetchOptions Own) : option Own * bool :=
  match opts with
  | OwnPointer p => (p, true)
  | NilInterface | OtherType _ => (None, false)
  end.

(** ** The outside world *)

(** A request as the workflows build it.  [Body] is the payload that
    [json.Marshal] turns into the body, when there is one (marshalling
    cannot fail on the payloads built here); header names are kept as
    written. *)
Record HttpRequest : Type := mk_request
  { Method : string;
    URL : string;
    Header : gmap string string;
    Body : option (gmap string JSON) }.

Record HttpResponse : Type := mk_response
  { StatusCode : Z;
    ResponseBody : string }.

(** What a call can be observed to do. *)
Inductive Event : Type :=
| EvRequest (req : HttpRequest)
| EvSleep (milliseconds : Z).

(** Everything a call reads from outside, indexed where it can change
    by the number of effects the call has performed so far:
    - [ctx_err n]: [ctx.Err()] at that moment, [None] while [ctx.Done()]
      is not ready;
    - [round_trip n req]: the outcome of [client.Do] and of reading the
      body for a request sent at that moment;
    - [unix_now n]: [time.Now().Unix()];
    - [request_error url]: the error of [http.NewRequest], if any;
    - [json_decode]: [json.NewDecoder(body).Decode] into a map;
    - [json_unmarshal]: [json.Unmarshal] into a map;
    - [md5_hex]: the lower-case hexadecimal MD5 digest. *)
Record Env : Type := mk_env
  { ctx_err : nat -> option ctx_error;
    round_trip : nat -> HttpRequest -> result HttpResponse;
    unix_now : nat -> Z;
    request_error : string -> option error;
    json_decode : string -> result (gmap string JSON);
    json_unmarshal : string -> result (gmap string JSON);
    md5_hex : string -> string }.

(** Computations that read the environment and extend the trace of
    effects. *)
Definition M (A : Type) : Type := Env -> list Event -> A * list Event.

Definition ret {A : Type} (a : A) : M A := fun _ tr => (a, tr).

Definition bind {A B : Type} (c : M A) (k : A -> M B) : M B :=
  fun env tr => let '(a, tr') := c env tr in k a env tr'.

Declare Scope io_scope.
Delimit Scope io_scope with io.
Notation "'let*' x ':=' c 'in' k" := (bind c (fun x => k))
  (at level 10, x name, c at level 100, k at level 200) : io_scope.
Notation "'let*' ' p ':=' c 'in' k" := (bind c (fun x => match x with p => k end))
  (at level 10, p pattern, c at level 100, k at level 200) : io_scope.
Local Open Scope io_scope.

Definition ask : M Env := fun env tr => (env, tr).

(** The non-blocking [select] on [ctx.Done()]. *)
Definition ctx_check : M (option ctx_error) :=
  fun env tr => (ctx_err env (length tr), tr).

Definition client_do (req : HttpRequest) : M (result HttpResponse) :=
  fun env tr => (round_trip env (length tr) req, tr ++ [EvRequest req]).

Definition sleep (milliseconds : Z) : M unit :=
  fun _ tr => (tt, tr ++ [EvSleep milliseconds]).

Definition time_now_unix : M Z :=
  fun env tr => (unix_now env (length tr), tr).

Definition is_request (ev : Event) : bool :=
  match ev with EvRequest _ => true | EvSleep _ => false end.

Definition is_sleep (ev : Event) : bool :=
  match ev with EvSleep _ => true | EvRequest _ => false end.

(** How many requests, and how many sleeps, a trace holds. *)
Definition requests (tr : list Event) : nat := length (filter (fun ev => is_request ev = true) tr).
Definition sleeps (tr : list Event) : nat := length (filter (fun ev => is_sleep ev = true) tr).

(** ** ElevenLabs: parse *)

Module ElevenLabs.

(** One iteration body of the word loop, after the entry was found to
    be an object. *)
Definition word_of (word : gmap string JSON) : Word.t :=
  let wordText := string_or_zero (word !! "text") in
  let start := float64_or_zero (word !! "start") in
  let end_ := float64_or_zero (word !! "end") in
  let wordTiming :=
    {| Word.Text := wordText;
       Word.Start := Float64.to_int64 (Float64.mul start (Float64.of_Z 1000));
       Word.End := Float64.to_int64 (Float64.mul end_ (Float64.of_Z 1000));
       Word.SpeakerID := "" |} in
  match as_string (word !! "speaker_id") with
  | Some speakerID =>
      if bool_decide (speakerID ≠ "")
      then {| Word.Text := Word.Text wordTiming;
              Word.Start := Word.Start wordTiming;
              Word.End := Word.End wordTiming;
              Word.SpeakerID := speakerID |}
      else wordTiming
  | None => wordTiming
  end.

(** The loop over [wordsRaw], appending to [result.Words]. *)
Definition collect_words (wordsRaw : list JSON) (acc : list Word.t) : list Word.t :=
  collect_objects word_of wordsRaw acc.

Definition parse (response : gmap string JSON) : result StandardResult.t :=
  match as_string (response !! "text") with
  | None => Err (ParseError "missing text field in response" None)
  | Some text =>
      match as_array (response !! "words") with
      | None => Err (ParseError "missing words field in response" None)
      | Some wordsRaw =>
          let language := default "" (as_string (response !! "language_code")) in
          let words := collect_words wordsRaw [] in
          if bool_decide (length words = 0%nat)
          then Err (ParseError "no words found in response" None)
          else Ok {| StandardResult.Text := text;
                     StandardResult.Words := words;
                     StandardResult.Sentences := [];
                     StandardResult.Language := language |}
      end
  end.

(** [Provider.Parse]: the raw result must be a decoded object. *)
Definition Parse (raw : JSON) : result StandardResult.t :=
  match as_object (Some raw) with
  | None => Err (ParseError "invalid raw result type, expected map[string]interface{}" None)
  | Some response => parse response
  end.

(** *** Options and [Provider.Fetch] *)

Record Options : Type := mk_options
  { LanguageCode : string;
    TagAudioEvents : bool }.

(** The zero value [&Options{}]. *)
Definition zero_options : Options :=
  {| LanguageCode := ""; TagAudioEvents := false |}.

(** [Validate] works on the pointee: it returns the options as they
    are left in place, and the error. *)
Definition Validate (o : Options) : Options * option error :=
  let o :=
    if bool_decide (LanguageCode o = "")
    then {| LanguageCode := "auto"; TagAudioEvents := TagAudioEvents o |}
    else o in
  (o, None).

Section Provider.

(** The workflow of fetch.go; the entry point only decides whether
    it runs and on which options. *)
Variable fetch : string -> Options -> M (result (gmap string JSON)).

Definition Fetch (audioPath : string) (opts : FetchOptions Options)
  : M (result (gmap string JSON)) :=
  let '(p, ok) := assert_own opts in
  let elevenlabsOpts :=
    match p with
    | Some o => if negb ok then zero_options else o
    | None => zero_options
    end in
  let '(elevenlabsOpts, err) := Validate elevenlabsOpts in
  match err with
  | Some e => ret (Err e)
  | None => fetch audioPath elevenlabsOpts
  end.

End Provider.

End ElevenLabs.

(** ** JianYing: parse *)

Module JianYing.

(** The speaker of an utterance or of a word: [attribute.speaker],
    kept only when it is a non-empty string. *)
Definition speaker_of (entry : gmap string JSON) : string :=
  match as_object (entry !! "attribute") with
  | Some attr =>
      match as_string (attr !! "speaker") with
      | Some speaker => if bool_decide (speaker ≠ "") then speaker else ""
      | None => ""
      end
  | None => ""
  end.

Definition word_of (word : gmap string JSON) : Word.t :=
  let wordText := string_or_zero (word !! "text") in
  let startTime := float64_or_zero (word !! "start_time") in
  let endTime := float64_or_zero (word !! "end_time") in
  {| Word.Text := wordText;
     Word.Start := Float64.to_int64 startTime;
     Word.End := Float64.to_int64 endTime;
     Word.SpeakerID := speaker_of word |}.

(** The inner loop over the words of one utterance. *)
Definition collect_words (wordsRaw : list JSON) (acc : list Word.t) : list Word.t :=
  collect_objects word_of wordsRaw acc.

(** What the outer loop accumulates: [textParts], [result.Sentences]
    and [result.Words]. *)
Record acc : Type := mk_acc
  { textParts : list string;
    sentences : list Sentence.t;
    words : list Word.t }.

Definition sentence_of (utt : gmap string JSON) (text : string) : Sentence.t :=
  let startTimeUtt := float64_or_zero (utt !! "start_time") in
  let endTimeUtt := float64_or_zero (utt !! "end_time") in
  {| Sentence.Text := text;
     Sentence.Start := Float64.to_int64 startTimeUtt;
     Sentence.End := Float64.to_int64 endTimeUtt;
     Sentence.SpeakerID := speaker_of utt |}.

(** One iteration of the loop over [utterancesRaw]. *)
Definition utterance_step (a : acc) (uttRaw : JSON) : acc :=
  match as_object (Some uttRaw) with
  | None => a
  | Some utt =>
      let text := string_or_zero (utt !! "text") in
      let a1 :=
        if bool_decide (text ≠ "")
        then {| textParts := textParts a ++ [text];
                sentences := sentences a ++ [sentence_of utt text];
                words := words a |}
        else a in
      match as_array (utt !! "words") with
      | None => a1
      | Some wordsRaw =>
          {| textParts := textParts a1;
             sentences := sentences a1;
             words := collect_words wordsRaw (words a1) |}
      end
  end.

(** [data.attribute.extra.language], when present. *)
Definition language_of (data : gmap string JSON) : string :=
  match as_object (data !! "attribute") with
  | Some attr =>
      match as_object (attr !! "extra") with
      | Some extra => default "" (as_string (extra !! "language"))
      | None => ""
      end
  | None => ""
  end.

Definition parse (response : gmap string JSON) : result StandardResult.t :=
  match as_object (response !! "data") with
  | None => Err (ParseError "missing data field in response" None)
  | Some data =>
      match as_array (data !! "utterances") with
      | None => Err (ParseError "missing utterances field in data" None)
      | Some utterancesRaw =>
          let a := fold_left utterance_step utterancesRaw (mk_acc [] [] []) in
          if bool_decide (length (words a) = 0%nat)
          then Err (ParseError "no words found in response" None)
          else Ok {| StandardResult.Text := join_empty (textParts a);
                     StandardResult.Words := words a;
                     StandardResult.Sentences := sentences a;
                     StandardResult.Language := language_of data |}
      end
  end.

Definition Parse (raw : JSON) : result StandardResult.t :=
  match as_object (Some raw) with
  | None => Err (ParseError "invalid raw result type, expected map[string]interface{}" None)
  | Some response => parse response
  end.

(** *** Options and [Provider.Fetch] *)

Record Options : Type := mk_options
  { StartTime : Float64.t;
    EndTime : Float64.t }.

Definition zero_options : Options :=
  {| StartTime := Float64.zero; EndTime := Float64.zero |}.

Definition Validate (o : Options) : Options * option error :=
  let o :=
    if Float64.eqb (EndTime o) (Float64.of_Z 0)
    then {| StartTime := StartTime o; EndTime := Float64.of_Z 6000 |}
    else o in
  if Float64.ltb (StartTime o) (Float64.of_Z 0)
  then (o, Some (ValidationError "StartTime" "must be non-negative"))
  else if Float64.ltb (EndTime o) (Float64.of_Z 0)
  then (o, Some (ValidationError "EndTime" "must be non-negative"))
  else if Float64.geb (StartTime o) (EndTime o)
  then (o, Some (ValidationError "StartTime/EndTime" "StartTime must be less than EndTime"))
  else (o, None).

Section Provider.

Variable fetch : string -> Options -> M (result (gmap string JSON)).

Definition Fetch (audioPath : string) (opts : FetchOptions Options)
  : M (result (gmap string JSON)) :=
  let '(p, ok) := assert_own opts in
  let jianyingOpts :=
    match p with
    | Some o => if negb ok then zero_options else o
    | None => zero_options
    end in
  let '(jianyingOpts, err) := Validate jianyingOpts in
  match err with
  | Some e => ret (Err e)
  | None => fetch audioPath jianyingOpts
  end.

End Provider.

(** *** The task-query step *)

Definition apiBaseURL : string := "https://lv-pc-api-sinfonlinec.ulikecam.com".
Definition apiQuery : string := apiBaseURL +:+ "/lv/v1/audio_subtitle/query".

(** [getStringField(m, key)] on a map. *)
Definition getStringField (m : gmap string JSON) (key : string) : string :=
  default "" (as_string (m !! key)).

(** The last seven bytes of the path, or all of it when shorter. *)
Definition last7 (pathname : string) : string :=
  let n := String.length pathname in
  if (7 <=? n)%nat then String.substring (n - 7) 7 pathname else pathname.

(** [generateSign]: the signature and the device time; it has no
    failing path. *)
Definition generateSign (url tdid : string) : M (string * string) :=
  let* now := time_now_unix in
  let* env := ask in
  let deviceTime := pretty now in
  let v := last7 url in
  let pf := "4" in
  let appVersion := "6.6.0" in
  let signString :=
    "9e2c|" +:+ v +:+ "|" +:+ pf +:+ "|" +:+ appVersion +:+ "|"
            +:+ deviceTime +:+ "|" +:+ tdid +:+ "|11ac" in
  ret (md5_hex env signString, deviceTime).

Definition buildHeaders (sign deviceTime tdid : string) : gmap string string :=
  {[ "User-Agent" := "Cronet/TTNetVersion:d4572e53 2024-06-12 QuicVersion:4bf243e0 2023-04-17";
     "appvr" := "6.6.0";
     "device-time" := deviceTime;
     "pf" := "4";
     "sign" := sign;
     "sign-ver" := "1";
     "tdid" := tdid ]}.

(** [doRequest]: one JSON request and the checks on its reply.  The
    given headers are set after [Content-Type] and so take precedence. *)
Definition doRequest (method url : string) (payload : gmap string JSON)
    (headers : gmap string string) : M (result (gmap string JSON)) :=
  let* env := ask in
  match request_error env url with
  | Some e => ret (Err e)
  | None =>
      let req :=
        {| Method := method;
           URL := url;
           Header := headers ∪ {[ "Content-Type" := "application/json" ]};
           Body := Some payload |} in
      let* reply := client_do req in
      match reply with
      | Err e => ret (Err e)
      | Ok resp =>
          if bool_decide (StatusCode resp ≠ 200)
          then ret (Err (APIError (StatusCode resp) (ResponseBody resp)))
          else
            let decoded :=
              if bool_decide (ResponseBody resp ≠ "")
              then json_unmarshal env (ResponseBody resp)
              else Ok ∅ in
            match decoded with
            | Err e => ret (Err (ErrorfWrap "failed to parse JSON response" e))
            | Ok result =>
                let r := getStringField result "ret" in
                if bool_decide (r ≠ "0")
                then ret (Err (Errorf ("API returned error: ret=" +:+ r +:+ ", errmsg="
                                         +:+ getStringField result "errmsg")))
                else ret (Ok result)
            end
      end
  end.

Definition queryTask (queryID tdid : string) : M (result (gmap string JSON)) :=
  let payload : gmap string JSON :=
    {[ "id" := JStr queryID;
       "pack_options" := JObj {[ "need_attribute" := JBool true ]} ]} in
  let* '(sign, deviceTime) := generateSign "/lv/v1/audio_subtitle/query" tdid in
  let headers := buildHeaders sign deviceTime tdid in
  doRequest "POST" apiQuery payload headers.

End JianYing.

(** ** Bijian: parse *)

Module Bijian.

Definition word_of (word : gmap string JSON) : Word.t :=
  let label := string_or_zero (word !! "label") in
  let startTime := float64_or_zero (word !! "start_time") in
  let endTime := float64_or_zero (word !! "end_time") in
  {| Word.Text := label;
     Word.Start := Float64.to_int64 startTime;
     Word.End := Float64.to_int64 endTime;
     Word.SpeakerID := "" |}.

Definition collect_words (wordsRaw : list JSON) (acc : list Word.t) : list Word.t :=
  collect_objects word_of wordsRaw acc.

Record acc : Type := mk_acc
  { textParts : list string;
    sentences : list Sentence.t;
    words : list Word.t }.

Definition sentence_of (utt : gmap string JSON) (transcript : string) : Sentence.t :=
  let startTimeUtt := float64_or_zero (utt !! "start_time") in
  let endTimeUtt := float64_or_zero (utt !! "end_time") in
  {| Sentence.Text := transcript;
     Sentence.Start := Float64.to_int64 startTimeUtt;
     Sentence.End := Float64.to_int64 endTimeUtt;
     Sentence.SpeakerID := "" |}.

Definition utterance_step (a : acc) (uttRaw : JSON) : acc :=
  match as_object (Some uttRaw) with
  | None => a
  | Some utt =>
      let transcript := string_or_zero (utt !! "transcript") in
      let a1 :=
        if bool_decide (transcript ≠ "")
        then {| textParts := textParts a ++ [transcript];
                sentences := sentences a ++ [sentence_of utt transcript];
                words := words a |}
        else a in
      match as_array (utt !! "words") with
      | None => a1
      | Some wordsRaw =>
          {| textParts := textParts a1;
             sentences := sentences a1;
             words := collect_words wordsRaw (words a1) |}
      end
  end.

Definition parse (response : gmap string JSON) : result StandardResult.t :=
  match as_array (response !! "utterances") with
  | None => Err (ParseError "missing utterances field in response" None)
  | Some utterancesRaw =>
      let a := fold_left utterance_step utterancesRaw (mk_acc [] [] []) in
      if bool_decide (length (words a) = 0%nat)
      then Err (ParseError "no words found in response" None)
      else Ok {| StandardResult.Text := join_empty (textParts a);
                 StandardResult.Words := words a;
                 StandardResult.Sentences := sentences a;
                 StandardResult.Language := "" |}
  end.

Definition Parse (raw : JSON) : result StandardResult.t :=
  match as_object (Some raw) with
  | None => Err (ParseError "invalid raw result type, expected map[string]interface{}" None)
  | Some response => parse response
  end.

(** *** Options and [Provider.Fetch] *)

Record Options : Type := mk_options
  { Cookie : string }.

Definition zero_options : Options := {| Cookie := "" |}.

Definition Validate (o : Options) : Options * option error := (o, None).

Section Provider.

Variable fetch : string -> Options -> M (result (gmap string JSON)).

Definition Fetch (audioPath : string) (opts : FetchOptions Options)
  : M (result (gmap string JSON)) :=
  let '(p, ok) := assert_own opts in
  let bijianOpts :=
    match p with
    | Some o => if negb ok then zero_options else o
    | None => zero_options
    end in
  let '(bijianOpts, err) := Validate bijianOpts in
  match err with
  | Some e => ret (Err e)
  | None => fetch audioPath bijianOpts
  end.

End Provider.

(** *** The poll step *)

Definition apiBaseURL : string := "https://member.bilibili.com/x/bcut/rubick-interface".
Definition apiQueryResult : string := apiBaseURL +:+ "/task/result".

Definition queryURL (taskID : string) : string :=
  apiQueryResult +:+ "?model_id=7&task_id=" +:+ taskID.

Definition queryRequest (taskID : string) (opts : Options) : HttpRequest :=
  let h : gmap string string :=
    {[ "User-Agent" := "Bilibili/1.0.0 (https://www.bilibili.com)" ]} in
  {| Method := "GET";
     URL := queryURL taskID;
     Header := if bool_decide (Cookie opts ≠ "") then <["Cookie" := Cookie opts]> h else h;
     Body := None |}.

(** [queryResult]: one status request. *)
Definition queryResult (taskID : string) (opts : Options) : M (result (gmap string JSON)) :=
  let* env := ask in
  match request_error env (queryURL taskID) with
  | Some e => ret (Err e)
  | None =>
      let* reply := client_do (queryRequest taskID opts) in
      match reply with
      | Err e => ret (Err e)
      | Ok resp =>
          if bool_decide (StatusCode resp ≠ 200)
          then ret (Err (APIError (StatusCode resp) (ResponseBody resp)))
          else
            match json_decode env (ResponseBody resp) with
            | Err e => ret (Err (ErrorfWrap "failed to parse JSON response" e))
            | Ok result => ret (Ok result)
            end
      end
  end.

(** What one attempt does with a decoded status response: return, or
    go on polling. *)
Inductive verdict : Type :=
| Return (r : result (gmap string JSON))
| Continue.

Definition examine (env : Env) (resp : gmap string JSON) : verdict :=
  match as_object (resp !! "data") with
  | None => Return (Err (Errorf "missing data field in response"))
  | Some data =>
      match as_float64 (data !! "state") with
      | None => Return (Err (Errorf "missing state in response"))
      | Some state =>
          if Float64.eqb state (Float64.of_Z 4)
          then
            match as_string (data !! "result") with
            | None => Return (Err (Errorf "missing result in response"))
            | Some resultStr =>
                match json_unmarshal env resultStr with
                | Err e => Return (Err (ErrorfWrap "failed to parse result JSON" e))
                | Ok result => Return (Ok result)
                end
            end
          else Continue
      end
  end.

(** The loop [for i := 0; i < 500; i++], by the number of iterations
    that remain. *)
Fixpoint poll_loop (remaining : nat) (taskID : string) (opts : Options)
  : M (result (gmap string JSON)) :=
  match remaining with
  | O => ret (Err (Errorf "polling timeout after 500 attempts"))
  | S remaining' =>
      let* done := ctx_check in
      match done with
      | Some c => ret (Err (ContextError c))
      | None =>
          let* r := queryResult taskID opts in
          match r with
          | Err e => ret (Err e)
          | Ok resp =>
              let* env := ask in
              match examine env resp with
              | Return out => ret out
              | Continue =>
                  let* _ := sleep 1000 in
                  poll_loop remaining' taskID opts
              end
          end
      end
  end.

Definition pollResult (taskID : string) (opts : Options) : M (result (gmap string JSON)) :=
  poll_loop 500 taskID opts.

End Bijian.

(** ** Inputs used in examples *)

Module Examples.

(** The raw response of the specification's normalization example. *)
Definition spec_response : gmap string JSON :=
  {[ "text" := JStr "hi there";
     "words" :=
       JArr [ JObj {[ "text" := JStr "hi";
                      "start" := JNum (Float64.of_ratio 0 10);
                      "end" := JNum (Float64.of_ratio 4 10);
                      "speaker_id" := JStr "A" ]};
              JObj {[ "text" := JStr "there";
                      "start" := JNum (Float64.of_ratio 4 10);
                      "end" := JNum (Float64.of_ratio 9 10) ]} ];
     "language_code" := JStr "en" ]}.

Definition spec_result : StandardResult.t :=
  {| StandardResult.Text := "hi there";
     StandardResult.Words :=
       [ {| Word.Text := "hi"; Word.Start := 0; Word.End := 400; Word.SpeakerID := "A" |};
         {| Word.Text := "there"; Word.Start := 400; Word.End := 900; Word.SpeakerID := "" |} ];
     StandardResult.Sentences := [];
     StandardResult.Language := "en" |}.

(** A JianYing response whose only utterance has text but no words. *)
Definition text_without_words : gmap string JSON :=
  {[ "data" := JObj {[ "utterances" :=
       JArr [ JObj {[ "text" := JStr "hello";
                      "start_time" := JNum (Float64.of_Z 0);
                      "end_time" := JNum (Float64.of_Z 900) ]} ] ]} ]}.


(** An ElevenLabs response whose single word entry has no field at
    all. *)
Definition bare_word_response : gmap string JSON :=
  {[ "text" := JStr "hi"; "words" := JArr [ JObj ∅ ] ]}.

(** The two option values of the validation example. *)
Definition inverted_range : JianYing.Options :=
  {| JianYing.StartTime := Float64.of_Z 10; JianYing.EndTime := Float64.of_Z 5 |}.

Definition all_zero_times : JianYing.Options :=
  {| JianYing.StartTime := Float64.of_Z 0; JianYing.EndTime := Float64.of_Z 0 |}.

(** A workflow that returns an empty response without any effect. *)
Definition idle_fetch {Options : Type} (audioPath : string) (opts : Options)
  : M (result (gmap string JSON)) :=
  ret (Ok ∅).

(** What the result string of a finished task decodes to. *)
Definition transcript : gmap string JSON :=
  {[ "utterances" := JArr [] ]}.

(** The scenario of the specification: the status endpoint answers
    "pending" to the first two attempts and "complete" from the third
    on; the context is never done. *)
Definition scenario_env : Env :=
  {| ctx_err := fun _ => None;
     round_trip := fun n _ =>
       Ok {| StatusCode := 200;
             ResponseBody := if (n <? 4)%nat then "pending" else "complete" |};
     unix_now := fun _ => 1700000000;
     request_error := fun _ => None;
     json_decode := fun body =>
       if bool_decide (body = "complete")
       then Ok {[ "data" := JObj {[ "state" := JNum (Float64.of_Z 4);
                                    "result" := JStr "transcript" ]} ]}
       else Ok {[ "data" := JObj {[ "state" := JNum (Float64.of_Z 1) ]} ]};
     json_unmarshal := fun text =>
       if bool_decide (text = "transcript") then Ok transcript
       else Err (TransportError "invalid character");
     md5_hex := fun text => text |}.

(** The same endpoint answering "pending" for ever. *)
Definition always_pending_env : Env :=
  {| ctx_err := fun _ => None;
     round_trip := fun _ _ => Ok {| StatusCode := 200; ResponseBody := "pending" |};
     unix_now := unix_now scenario_env;
     request_error := fun _ => None;
     json_decode := json_decode scenario_env;
     json_unmarshal := json_unmarshal scenario_env;
     md5_hex := md5_hex scenario_env |}.

(** The context is cancelled while the loop sleeps after its second
    attempt. *)
Definition cancelled_env : Env :=
  {| ctx_err := fun n => if (n <? 4)%nat then None else Some Canceled;
     round_trip := round_trip always_pending_env;
     unix_now := unix_now scenario_env;
     request_error := fun _ => None;
     json_decode := json_decode scenario_env;
     json_unmarshal := json_unmarshal scenario_env;
     md5_hex := md5_hex scenario_env |}.

Definition no_cookie : Bijian.Options := {| Bijian.Cookie := "" |}.

(** A JianYing query endpoint that accepts every request and answers
    with an envelope that carries no utterances yet. *)
Definition in_progress : gmap string JSON :=
  {[ "ret" := JStr "0"; "data" := JObj ∅ ]}.

Definition in_progress_env : Env :=
  {| ctx_err := fun _ => None;
     round_trip := fun _ _ => Ok {| StatusCode := 200; ResponseBody := "in progress" |};
     unix_now := fun _ => 1700000000;
     request_error := fun _ => None;
     json_decode := fun _ => Ok in_progress;
     json_unmarshal := fun _ => Ok in_progress;
     md5_hex := fun text => text |}.

End Examples.

(** ** Vocabulary of the poll-loop properties *)

(** A reply to a status request that reports a task still in progress:
    status 200, a body that decodes, and a numeric [data.state] other
    than 4. *)
Definition pending_reply (env : Env) (reply : result HttpResponse) : Prop :=
  exists resp obj data state,
    reply = Ok resp
    /\ StatusCode resp = 200
    /\ json_decode env (ResponseBody resp) = Ok obj
    /\ as_object (obj !! "data") = Some data
    /\ as_float64 (data !! "state") = Some state
    /\ Float64.eqb state (Float64.of_Z 4) = false.

(** The effects of [k] attempts that found the task in progress: a
    status request, then one second of sleep, [k] times over. *)
Fixpoint attempts (req : HttpRequest) (k : nat) : list Event :=
  match k with
  | O => []
  | S k' => EvRequest req :: EvSleep 1000 :: attempts req k'
  end.

(** Starting after the effects [tr], the context is not done before any
    of the next [k] attempts and each of them finds the task in
    progress.  (Attempt [j] starts after [2 * j] further effects.) *)
Definition pending_attempts (env : Env) (taskID : string) (opts : Bijian.Options)
    (tr : list Event) (k : nat) : Prop :=
  forall j, (j < k)%nat ->
    ctx_err env (length tr + 2 * j) = None
    /\ pending_reply env
         (round_trip env (length tr + 2 * j) (Bijian.queryRequest taskID opts)).

(** An options argument that does not carry the package's own options:
    the nil interface, a nil pointer, or a value of another type. *)
Definition not_own_options {Own : Type} (opts : FetchOptions Own) : Prop :=
  match opts with
  | OwnPointer (Some _) => False
  | NilInterface | OwnPointer None | OtherType _ => True
  end.

(** ** Vocabulary of the parser properties *)

(** The entries of a decoded array that are objects, in order. *)
Definition objects (entries : list JSON) : list (gmap string JSON) :=
  omap (fun entry => as_object (Some entry)) entries.

(** The words built from the [words] arrays of a list of utterances, in
    order; an utterance without such an array contributes none. *)
Definition words_of_utterances (build : gmap string JSON -> Word.t)
    (utterances : list (gmap string JSON)) : list Word.t :=
  flat_map (fun utt => map build (objects (default [] (as_array (utt !! "words")))))
           utterances.

(** The utterances whose text, under the key [key], is a non-empty
    string. *)
Definition spoken (key : string) (utterances : list (gmap string JSON))
  : list (gmap string JSON) :=
  filter (fun utt => string_or_zero (utt !! key) ≠ "") utterances.

(** ** Vocabulary of the further poll-loop properties *)

(** A reply to a status request that reports the task finished, with
    what its result decodes to: status 200, a body that decodes, a
    [data.state] equal to 4 and a [data.result] string that decodes to
    [result]. *)
Definition terminal_reply (env : Env) (reply : result HttpResponse)
    (result : gmap string JSON) : Prop :=
  exists resp obj data state resultStr,
    reply = Ok resp
    /\ StatusCode resp = 200
    /\ json_decode env (ResponseBody resp) = Ok obj
    /\ as_object (obj !! "data") = Some data
    /\ as_float64 (data !! "state") = Some state
    /\ Float64.eqb state (Float64.of_Z 4) = true
    /\ as_string (data !! "result") = Some resultStr
    /\ json_unmarshal env resultStr = Ok result.

(** ** Further inputs used in examples *)

Module Scenarios.

(** A JianYing response of two utterances around an entry that is not
    an object; the second utterance has words but no text, and its
    [words] array starts with an entry that is not an object. *)
Definition jianying_response : gmap string JSON :=
  {[ "data" := JObj {[ "utterances" :=
       JArr [ JObj {[ "text" := JStr "hello";
                      "start_time" := JNum (Float64.of_Z 0);
                      "end_time" := JNum (Float64.of_Z 500);
                      "words" :=
                        JArr [ JObj {[ "text" := JStr "hello";
                                       "start_time" := JNum (Float64.of_Z 0);
                                       "end_time" := JNum (Float64.of_Z 500) ]} ] ]};
              JStr "noise";
              JObj {[ "words" :=
                        JArr [ JNull;
                               JObj {[ "text" := JStr "world";
                                       "start_time" := JNum (Float64.of_Z 600);
                                       "end_time" := JNum (Float64.of_Z 900) ]} ] ]} ] ]} ]}.

Definition jianying_result : StandardResult.t :=
  {| StandardResult.Text := "hello";
     StandardResult.Words :=
       [ {| Word.Text := "hello"; Word.Start := 0; Word.End := 500; Word.SpeakerID := "" |};
         {| Word.Text := "world"; Word.Start := 600; Word.End := 900; Word.SpeakerID := "" |} ];
     StandardResult.Sentences :=
       [ {| Sentence.Text := "hello"; Sentence.Start := 0; Sentence.End := 500;
            Sentence.SpeakerID := "" |} ];
     StandardResult.Language := "" |}.

(** The same transcript as Bijian reports it. *)
Definition bijian_response : gmap string JSON :=
  {[ "utterances" :=
       JArr [ JObj {[ "transcript" := JStr "hello";
                      "start_time" := JNum (Float64.of_Z 0);
                      "end_time" := JNum (Float64.of_Z 500);
                      "words" :=
                        JArr [ JObj {[ "label" := JStr "hello";
                                       "start_time" := JNum (Float64.of_Z 0);
                                       "end_time" := JNum (Float64.of_Z 500) ]} ] ]};
              JStr "noise";
              JObj {[ "words" :=
                        JArr [ JNull;
                               JObj {[ "label" := JStr "world";
                                       "start_time" := JNum (Float64.of_Z 600);
                                       "end_time" := JNum (Float64.of_Z 900) ]} ] ]} ] ]}.

Definition bijian_result : StandardResult.t := jianying_result.

(** A status endpoint that answers "pending" to the first two attempts
    and then fails with status 503. *)
Definition failing_env : Env :=
  {| ctx_err := fun _ => None;
     round_trip := fun n _ =>
       if (n <? 4)%nat
       then Ok {| StatusCode := 200; ResponseBody := "pending" |}
       else Ok {| StatusCode := 503; ResponseBody := "busy" |};
     unix_now := unix_now Examples.scenario_env;
     request_error := fun _ => None;
     json_decode := json_decode Examples.scenario_env;
     json_unmarshal := json_unmarshal Examples.scenario_env;
     md5_hex := md5_hex Examples.scenario_env |}.

End Scenarios.

(** ** The provider registry and [Transcribe] *)

Module Asr.

(** A [FetchOptions] interface value as a caller of [Transcribe] can
    pass it: the nil interface, a pointer (possibly nil) to the options
    of one of the three provider packages, or a value of some other
    type. *)
Inductive AnyOptions : Type :=
| NoOptions
| ElevenLabsOptions (p : option ElevenLabs.Options)
| JianYingOptions (p : option JianYing.Options)
| BijianOptions (p : option Bijian.Options)
| ForeignOptions (type_name : string).

(** The same value as each package's type assertion sees it. *)
Definition seen_by_elevenlabs (opts : AnyOptions) : FetchOptions ElevenLabs.Options :=
  match opts with
  | NoOptions => NilInterface
  | ElevenLabsOptions p => OwnPointer p
  | JianYingOptions _ => OtherType "*jianying.Options"
  | BijianOptions _ => OtherType "*bijian.Options"
  | ForeignOptions type_name => OtherType type_name
  end.

Definition seen_by_jianying (opts : AnyOptions) : FetchOptions JianYing.Options :=
  match opts with
  | NoOptions => NilInterface
  | JianYingOptions p => OwnPointer p
  | ElevenLabsOptions _ => OtherType "*elevenlabs.Options"
  | BijianOptions _ => OtherType "*bijian.Options"
  | ForeignOptions type_name => OtherType type_name
  end.

Definition seen_by_bijian (opts : AnyOptions) : FetchOptions Bijian.Options :=
  match opts with
  | NoOptions => NilInterface
  | BijianOptions p => OwnPointer p
  | ElevenLabsOptions _ => OtherType "*elevenlabs.Options"
  | JianYingOptions _ => OtherType "*jianying.Options"
  | ForeignOptions type_name => OtherType type_name
  end.

(** The [Provider] interface: a value with the three methods.  A raw
    result is a decoded JSON value. *)
Record Provider : Type := mk_provider
  { Name : string;
    Fetch : string -> AnyOptions -> M (result JSON);
    Parse : JSON -> result StandardResult.t }.

(** A [Registry] is the map it guards with its lock, from names to
    providers; calls are taken one at a time. *)
Definition Register (r : gmap string Provider) (provider : Provider)
  : gmap string Provider :=
  <[Name provider := provider]> r.

Definition Get (r : gmap string Provider) (name : string) : result Provider :=
  match r !! name with
  | None => Err (Errorf ("provider '" +:+ name +:+ "' not found"))
  | Some provider => Ok provider
  end.

(** The names, in the order the map is ranged over (which the language
    does not fix; nothing below depends on it). *)
Definition List (r : gmap string Provider) : list string := (map_to_list r).*1.

Definition Transcribe (r : gmap string Provider) (providerName audioPath : string) (opts : AnyOptions)
  : M (result StandardResult.t) :=
  match Get r providerName with
  | Err e => ret (Err e)
  | Ok provider =>
      let* raw := Fetch provider audioPath opts in
      match raw with
      | Err e => ret (Err (ErrorfWrap "fetch failed" e))
      | Ok raw =>
          match Parse provider raw with
          | Err e => ret (Err (ErrorfWrap "parse failed" e))
          | Ok result => ret (Ok result)
          end
      end
  end.

(** *** The three providers *)

(** A map returned by a workflow, as the raw result of [Fetch]. *)
Definition raw_result (r : result (gmap string JSON)) : result JSON :=
  match r with
  | Ok response => Ok (JObj response)
  | Err e => Err e
  end.

Section Providers.

(** The workflows of the three packages. *)
Variable elevenlabs_fetch : string -> ElevenLabs.Options -> M (result (gmap string JSON)).
Variable jianying_fetch : string -> JianYing.Options -> M (result (gmap string JSON)).
Variable bijian_fetch : string -> Bijian.Options -> M (result (gmap string JSON)).

Definition elevenlabs : Provider :=
  {| Name := "elevenlabs";
     Fetch := fun audioPath opts =>
       let* r := ElevenLabs.Fetch elevenlabs_fetch audioPath (seen_by_elevenlabs opts) in
       ret (raw_result r);
     Parse := ElevenLabs.Parse |}.

Definition jianying : Provider :=
  {| Name := "jianying";
     Fetch := fun audioPath opts =>
       let* r := JianYing.Fetch jianying_fetch audioPath (seen_by_jianying opts) in
       ret (raw_result r);
     Parse := JianYing.Parse |}.

Definition bijian : Provider :=
  {| Name := "bijian";
     Fetch := fun audioPath opts =>
       let* r := Bijian.Fetch bijian_fetch audioPath (seen_by_bijian opts) in
       ret (raw_result r);
     Parse := Bijian.Parse |}.

(** The global registry once the [init] functions of the three packages
    have run. *)
Definition registered : gmap string Provider :=
  Register (Register (Register ∅ elevenlabs) jianying) bijian.

End Providers.

End Asr.
(** * Properties *)

(** ** Facts about binary64 rounding *)

(** *** Binary digits *)

(** [digits2_pos p] is the number of binary digits of [p]. *)
Lemma digits2_pos_bounds p :
  2 ^ (Zpos (digits2_pos p) - 1) <= Zpos p < 2 ^ Zpos (digits2_pos p).
Proof.
  induction p as [p IH|p IH|]; cbn [digits2_pos].
  - rewrite Pos2Z.inj_succ.
    replace (Z.succ (Zpos (digits2_pos p)) - 1) with (Z.succ (Zpos (digits2_pos p) - 1)) by lia.
    rewrite !Z.pow_succ_r by lia. lia.
  - rewrite Pos2Z.inj_succ.
    replace (Z.succ (Zpos (digits2_pos p)) - 1) with (Z.succ (Zpos (digits2_pos p) - 1)) by lia.
    rewrite !Z.pow_succ_r by lia. lia.
  - simpl. lia.
Qed.

(** *** The rounded quotient *)

Lemma rnq_bounds v u : 0 < u -> v / u <= rnq v u <= v / u + 1.
Proof.
  intros Hu. unfold rnq.
  destruct (2 * (v mod u) <? u); [lia|].
  destruct (u <? 2 * (v mod u)); [lia|].
  destruct (Z.even (v / u)); lia.
Qed.

(** A multiple of [u] is its own nearest multiple. *)
Lemma rnq_exact q u : 0 < u -> rnq (q * u) u = q.
Proof.
  intros Hu. unfold rnq.
  rewrite Z.mod_mul by lia. rewrite Z.div_mul by lia.
  replace (2 * 0 <? u) with true; [reflexivity|].
  symmetry. apply Z.ltb_lt. lia.
Qed.

(** Rounding to a fixed spacing is monotone. *)
Lemma rnq_mono v1 v2 u : 0 < u -> v1 <= v2 -> rnq v1 u <= rnq v2 u.
Proof.
  intros Hu Hv.
  pose proof (Z.div_le_mono v1 v2 u Hu Hv) as Hq.
  destruct (Z.eq_dec (v1 / u) (v2 / u)) as [Heq|Hne].
  - assert (Hr : v1 mod u <= v2 mod u).
    { pose proof (Z.div_mod v1 u ltac:(lia)). pose proof (Z.div_mod v2 u ltac:(lia)).
      rewrite Heq in *. lia. }
    unfold rnq. rewrite Heq.
    destruct (Z.ltb_spec (2 * (v1 mod u)) u); destruct (Z.ltb_spec (2 * (v2 mod u)) u);
      destruct (Z.ltb_spec u (2 * (v1 mod u))); destruct (Z.ltb_spec u (2 * (v2 mod u)));
      destruct (Z.even (v2 / u)); lia.
  - pose proof (rnq_bounds v1 u Hu). pose proof (rnq_bounds v2 u Hu). lia.
Qed.

(** Rounding keeps a value between the multiples of [u] that frame it. *)
Lemma rnq_le_multiple v u b : 0 < u -> v <= b * u -> rnq v u <= b.
Proof.
  intros Hu Hv. rewrite <- (rnq_exact b u Hu). apply rnq_mono; assumption.
Qed.

Lemma rnq_ge_multiple v u a : 0 < u -> a * u <= v -> a <= rnq v u.
Proof.
  intros Hu Hv. rewrite <- (rnq_exact a u Hu). apply rnq_mono; assumption.
Qed.

(** The rounded quotient does not depend on the unit of measure. *)
Lemma rnq_scale v u c : 0 < u -> 0 < c -> rnq (v * c) (u * c) = rnq v u.
Proof.
  intros Hu Hc. unfold rnq.
  rewrite Z.div_mul_cancel_r by lia.
  rewrite Z.mul_mod_distr_r by lia.
  assert (H1 : (2 * (v mod u * c) <? u * c) = (2 * (v mod u) <? u)).
  { destruct (Z.ltb_spec (2 * (v mod u)) u); [apply Z.ltb_lt|apply Z.ltb_ge]; nia. }
  assert (H2 : (u * c <? 2 * (v mod u * c)) = (u <? 2 * (v mod u))).
  { destruct (Z.ltb_spec u (2 * (v mod u))); [apply Z.ltb_lt|apply Z.ltb_ge]; nia. }
  rewrite H1, H2. reflexivity.
Qed.

(** *** The shift of [binary_round_aux] *)

Lemma iter_pos_nat {A : Type} (f : A -> A) p : forall x,
  SpecFloat.iter_pos f p x = Nat.iter (Pos.to_nat p) f x.
Proof.
  induction p as [p IH|p IH|]; intros x; cbn [SpecFloat.iter_pos].
  - rewrite !IH, Pos2Nat.inj_xI.
    replace (S (2 * Pos.to_nat p)) with (Pos.to_nat p + S (Pos.to_nat p))%nat by lia.
    rewrite Nat.iter_add, (Nat.iter_succ_r (Pos.to_nat p) f). reflexivity.
  - rewrite !IH, Pos2Nat.inj_xO.
    replace (2 * Pos.to_nat p)%nat with (Pos.to_nat p + Pos.to_nat p)%nat by lia.
    rewrite Nat.iter_add. reflexivity.
  - reflexivity.
Qed.

(** One step drops the last bit, remembers it as the round bit and
    folds the previous round bit into the sticky bit. *)
Lemma shr_1_nonneg m r s :
  0 <= m ->
  shr_1 (Build_shr_record m r s) = Build_shr_record (m / 2) (Z.odd m) (r || s).
Proof.
  intros Hm. rewrite <- Z.div2_div.
  destruct m as [|[p|p|]|p]; try reflexivity. lia.
Qed.

(** After [n + 1] steps: the quotient by [2 ^ (n + 1)], bit [n] as round
    bit, and whether any lower bit was set as sticky bit. *)
Lemma shr_nat m n :
  0 <= m ->
  Nat.iter (S n) shr_1 (Build_shr_record m false false) =
  Build_shr_record (m / 2 ^ Z.of_nat (S n))
                   (Z.testbit m (Z.of_nat n))
                   (negb (m mod 2 ^ Z.of_nat n =? 0)).
Proof.
  intros Hm. induction n as [|n IH].
  - cbn [Nat.iter]. rewrite shr_1_nonneg by assumption.
    change (Z.of_nat 0) with 0. change (Z.of_nat 1) with 1.
    rewrite Z.bit0_odd, Z.pow_0_r, Z.mod_1_r, Z.pow_1_r. reflexivity.
  - change (Nat.iter (S (S n)) shr_1 ?x) with (shr_1 (Nat.iter (S n) shr_1 x)).
    rewrite IH.
    assert (Hp : 0 < 2 ^ Z.of_nat (S n)) by (apply Z.pow_pos_nonneg; lia).
    rewrite shr_1_nonneg by (apply Z.div_pos; lia).
    f_equal.
    + rewrite Z.div_div by lia.
      f_equal. rewrite (Nat2Z.inj_succ (S n)), Z.pow_succ_r by lia. lia.
    + rewrite Z.testbit_odd, Z.shiftr_div_pow2 by lia. reflexivity.
    + rewrite (Nat2Z.inj_succ n), Z.pow_succ_r by lia.
      assert (Hq : 0 < 2 ^ Z.of_nat n) by (apply Z.pow_pos_nonneg; lia).
      rewrite (Z.mul_comm 2), Z.rem_mul_r by lia.
      rewrite Z.testbit_odd, Z.shiftr_div_pow2 by lia.
      rewrite (Zmod_odd (m / 2 ^ Z.of_nat n)).
      pose proof (Z.mod_pos_bound m (2 ^ Z.of_nat n) Hq).
      destruct (Z.odd (m / 2 ^ Z.of_nat n));
        destruct (Z.eqb_spec (m mod 2 ^ Z.of_nat n) 0) as [E'|E']; simpl;
        symmetry; try (apply Z.eqb_eq); try (apply negb_true_iff, Z.eqb_neq); nia.
Qed.

(** Shifting by [p] bits and rounding to nearest even is [rnq] with the
    spacing [2 ^ p]. *)
Lemma shr_round m p :
  0 <= m ->
  let mrs := SpecFloat.iter_pos shr_1 p (Build_shr_record m false false) in
  round_nearest_even (shr_m mrs) (loc_of_shr_record mrs) = rnq m (2 ^ Zpos p).
Proof.
  intros Hm mrs. subst mrs. rewrite iter_pos_nat.
  destruct (Pos2Nat.is_succ p) as [n Hn]. rewrite Hn, shr_nat by assumption.
  assert (HN : Zpos p = Z.succ (Z.of_nat n)) by lia.
  replace (Z.of_nat (S n)) with (Zpos p) by lia.
  set (h := 2 ^ Z.of_nat n).
  assert (Hh : 0 < h) by (apply Z.pow_pos_nonneg; lia).
  assert (H2h : 2 ^ Zpos p = h * 2).
  { rewrite HN, Z.pow_succ_r by lia. subst h. lia. }
  unfold rnq. rewrite H2h.
  rewrite Z.rem_mul_r by lia.
  rewrite Z.testbit_odd, Z.shiftr_div_pow2 by lia. fold h.
  rewrite (Zmod_odd (m / h)).
  pose proof (Z.mod_pos_bound m h Hh) as Hl.
  cbn [shr_m].
  destruct (Z.odd (m / h)); destruct (Z.eqb_spec (m mod h) 0) as [E|E]; cbn [negb loc_of_shr_record round_nearest_even].
  - rewrite E.
    replace (2 * (0 + h * 1) <? h * 2) with false by (symmetry; apply Z.ltb_ge; lia).
    replace (h * 2 <? 2 * (0 + h * 1)) with false by (symmetry; apply Z.ltb_ge; lia).
    reflexivity.
  - replace (2 * (m mod h + h * 1) <? h * 2) with false by (symmetry; apply Z.ltb_ge; lia).
    replace (h * 2 <? 2 * (m mod h + h * 1)) with true by (symmetry; apply Z.ltb_lt; lia).
    reflexivity.
  - rewrite E.
    replace (2 * (0 + h * 0) <? h * 2) with true by (symmetry; apply Z.ltb_lt; lia).
    reflexivity.
  - replace (2 * (m mod h + h * 0) <? h * 2) with true by (symmetry; apply Z.ltb_lt; lia).
    reflexivity.
Qed.

(** *** Rounding a mantissa to binary64 *)

Lemma fexp_binary64 x : fexp 53 1024 x = Z.max (x - 53) (-1074).
Proof. reflexivity. Qed.

(** The first shift of [binary_round_aux], followed by its rounding. *)
Lemma shr_fexp_round m e :
  0 <= m ->
  let '(mrs, e') := shr_fexp 53 1024 m e loc_Exact in
  round_nearest_even (shr_m mrs) (loc_of_shr_record mrs) = rnq m (2 ^ shift64 m e)
  /\ e' = e + shift64 m e.
Proof.
  intros Hm. unfold shr_fexp, shift64, shr, shr_record_of_loc.
  destruct ((fexp 53 1024) (Zdigits2 m + e) - e) as [|p|p] eqn:Hn.
  - cbn [shr_m loc_of_shr_record round_nearest_even]. simpl Z.max.
    rewrite Z.pow_0_r. rewrite <- (Z.mul_1_r m) at 2. rewrite rnq_exact by lia. lia.
  - rewrite Z.max_l by lia. split; [apply shr_round; assumption | reflexivity].
  - cbn [shr_m loc_of_shr_record round_nearest_even]. rewrite Z.max_r by lia.
    rewrite Z.pow_0_r. rewrite <- (Z.mul_1_r m) at 2. rewrite rnq_exact by lia. lia.
Qed.

Lemma Zdigits2_le_53 q : 0 <= q < 2 ^ 53 -> Zdigits2 q <= 53.
Proof.
  intros [H0 H1]. destruct q as [|p|p]; [simpl; lia| |lia].
  cbn [Zdigits2]. pose proof (digits2_pos_bounds p) as [H2 _].
  destruct (Z_le_gt_dec (Zpos (digits2_pos p)) 53) as [|Hgt]; [assumption|].
  assert (2 ^ 53 <= 2 ^ (Zpos (digits2_pos p) - 1)) by (apply Z.pow_le_mono_r; lia).
  lia.
Qed.

(** The second, normalizing shift leaves the value unchanged. *)
Lemma shr_fexp_normalize q c :
  0 <= q <= 2 ^ 53 ->
  -1074 <= c ->
  let '(mrs, e') := shr_fexp 53 1024 q c loc_Exact in
  0 <= shr_m mrs /\ c <= e' /\ shr_m mrs * 2 ^ (e' - c) = q.
Proof.
  intros [H0 H1] Hc.
  destruct (Z.eq_dec q (2 ^ 53)) as [->|Hne].
  - change (shr_fexp 53 1024 (2 ^ 53) c loc_Exact)
      with (shr (Build_shr_record (2 ^ 53) false false) c ((fexp 53 1024) (54 + c) - c)).
    rewrite fexp_binary64. replace (Z.max (54 + c - 53) (-1074) - c) with 1 by lia.
    change (shr (Build_shr_record (2 ^ 53) false false) c 1)
      with (Build_shr_record (2 ^ 52) false false, c + 1).
    cbn [shr_m]. replace (c + 1 - c) with 1 by lia.
    change (2 ^ 52 * 2 ^ 1) with (2 ^ 53). lia.
  - pose proof (Zdigits2_le_53 q ltac:(lia)) as Hd.
    unfold shr_fexp, shr. rewrite fexp_binary64.
    destruct (Z.max (Zdigits2 q + c - 53) (-1074) - c) as [|p|p] eqn:Hn; try lia;
      cbn [shr_record_of_loc shr_m]; rewrite Z.sub_diag, Z.pow_0_r; lia.
Qed.

(** [binary_round_aux] on an exact positive mantissa: the mantissa is
    rounded at the spacing [2 ^ shift64], and the result carries that
    value unless it overflows. *)
Lemma binary_round_aux_spec P E :
  let n := shift64 (Zpos P) E in
  exists m e,
    0 <= m /\ E + n <= e
    /\ m * 2 ^ (e - (E + n)) = rnq (Zpos P) (2 ^ n)
    /\ binary_round_aux 53 1024 false (Zpos P) E loc_Exact = round_result m e.
Proof.
  intros n. unfold binary_round_aux.
  pose proof (shr_fexp_round (Zpos P) E ltac:(lia)) as H1.
  destruct (shr_fexp 53 1024 (Zpos P) E loc_Exact) as [mrs e'].
  destruct H1 as [Hq He']. fold n in Hq, He'. rewrite Hq.
  assert (Hn0 : 0 <= n) by (unfold n, shift64; lia).
  assert (Hpow : 0 < 2 ^ n) by (apply Z.pow_pos_nonneg; lia).
  assert (Hqb : 0 <= rnq (Zpos P) (2 ^ n) <= 2 ^ 53).
  { split.
    - apply rnq_ge_multiple; lia.
    - apply rnq_le_multiple; [lia|].
      pose proof (digits2_pos_bounds P) as [_ Hd].
      assert (Zpos (digits2_pos P) <= 53 + n).
      { unfold n, shift64. rewrite fexp_binary64. cbn [Zdigits2]. lia. }
      rewrite <- Z.pow_add_r by lia.
      assert (2 ^ Zpos (digits2_pos P) <= 2 ^ (53 + n)) by (apply Z.pow_le_mono_r; lia).
      lia. }
  assert (Hc : -1074 <= e').
  { rewrite He'. unfold n, shift64. rewrite fexp_binary64. lia. }
  pose proof (shr_fexp_normalize _ _ Hqb Hc) as H2.
  destruct (shr_fexp 53 1024 (rnq (Zpos P) (2 ^ n)) e' loc_Exact) as [mrs'' e''].
  destruct H2 as (Hm & Hle & Hval).
  exists (shr_m mrs''), e''. rewrite <- He'.
  repeat split; try assumption.
Qed.

(** *** Rounding as a function of the value *)

(** Rounding to binary64 is monotone: between two values of different
    magnitude lies a power of two that both roundings respect. *)
Lemma round_val_mono B V1 V2 :
  B <= -1074 -> 0 < V1 <= V2 -> round_val B V1 <= round_val B V2.
Proof.
  intros HB [H0 HV]. unfold round_val.
  set (k1 := ulp_exp B V1). set (k2 := ulp_exp B V2).
  assert (Hk1 : 0 <= k1) by (unfold k1, ulp_exp; lia).
  assert (Hlog : Z.log2 V1 <= Z.log2 V2) by (apply Z.log2_le_mono; assumption).
  assert (Hk : k1 <= k2) by (unfold k1, k2, ulp_exp; lia).
  assert (Hu1 : 0 < 2 ^ k1) by (apply Z.pow_pos_nonneg; lia).
  assert (Hu2 : 0 < 2 ^ k2) by (apply Z.pow_pos_nonneg; lia).
  destruct (Z.eq_dec k1 k2) as [Heq|Hne].
  - rewrite <- Heq. apply Z.mul_le_mono_nonneg_r; [lia|].
    apply rnq_mono; assumption.
  - assert (Hk2 : k2 = Z.log2 V2 + 1 - 53) by (unfold k1, k2, ulp_exp in *; lia).
    assert (Hl : Z.log2 V1 < Z.log2 V2) by (unfold k1, k2, ulp_exp in *; lia).
    pose proof (Z.log2_nonneg V1) as Hl1.
    destruct (Z.log2_spec V1 H0) as [_ Hup].
    destruct (Z.log2_spec V2 ltac:(lia)) as [Hlow _].
    set (pivot := 2 ^ Z.log2 V2) in *.
    assert (Hp1 : pivot = 2 ^ (Z.log2 V2 - k1) * 2 ^ k1).
    { unfold pivot. rewrite <- Z.pow_add_r by lia. f_equal. lia. }
    assert (Hp2 : pivot = 2 ^ (Z.log2 V2 - k2) * 2 ^ k2).
    { unfold pivot. rewrite <- Z.pow_add_r by lia. f_equal. lia. }
    assert (HV1 : V1 <= pivot).
    { assert (2 ^ Z.succ (Z.log2 V1) <= pivot)
        by (unfold pivot; apply Z.pow_le_mono_r; lia).
      lia. }
    transitivity pivot.
    + rewrite Hp1. apply Z.mul_le_mono_nonneg_r; [lia|].
      apply rnq_le_multiple; [assumption|]. rewrite <- Hp1. assumption.
    + rewrite Hp2. apply Z.mul_le_mono_nonneg_r; [lia|].
      apply rnq_ge_multiple; [assumption|]. rewrite <- Hp2. assumption.
Qed.

Lemma digits2_pos_log2 p : Zpos (digits2_pos p) = Z.log2 (Zpos p) + 1.
Proof.
  pose proof (digits2_pos_bounds p) as [H1 H2].
  assert (H : Z.log2 (Zpos p) = Zpos (digits2_pos p) - 1).
  { apply Z.log2_unique; [lia|].
    replace (Z.succ (Zpos (digits2_pos p) - 1)) with (Zpos (digits2_pos p)) by lia.
    split; assumption. }
  lia.
Qed.

(** The value of a rounded product, in units of [2 ^ B]. *)
Lemma binary_round_aux_value B P E :
  B <= -1074 -> B <= E ->
  exists m e,
    0 <= m /\ B <= e
    /\ m * 2 ^ (e - B) = round_val B (Zpos P * 2 ^ (E - B))
    /\ binary_round_aux 53 1024 false (Zpos P) E loc_Exact = round_result m e.
Proof.
  intros HB HE.
  destruct (binary_round_aux_spec P E) as (m & e & Hm & He & Hval & Hres).
  set (n := shift64 (Zpos P) E) in *.
  assert (Hn : 0 <= n) by (unfold n, shift64; lia).
  exists m, e. split; [assumption|]. split; [lia|]. split; [|assumption].
  replace (e - B) with ((e - (E + n)) + (E + n - B)) by lia.
  rewrite Z.pow_add_r, Z.mul_assoc, Hval by lia.
  unfold round_val, ulp_exp.
  set (k := Z.max (Z.log2 (Zpos P * 2 ^ (E - B)) + 1 - 53) (-1074 - B)).
  assert (Hk : k = Z.max (Zpos (digits2_pos P) + E - B - 53) (-1074 - B)).
  { unfold k. rewrite Z.log2_mul_pow2, digits2_pos_log2 by lia. lia. }
  clearbody k.
  assert (Hc : 0 < 2 ^ (E - B)) by (apply Z.pow_pos_nonneg; lia).
  assert (Hn' : n = Z.max (Z.max (Zpos (digits2_pos P) + E - 53) (-1074) - E) 0)
    by reflexivity.
  destruct (Z_le_gt_dec E (Z.max (Zpos (digits2_pos P) + E - 53) (-1074))) as [Hle|Hgt].
  - replace k with (n + (E - B)) by lia.
    replace (E + n - B) with (n + (E - B)) by lia.
    rewrite Z.pow_add_r by lia.
    rewrite rnq_scale by (try apply Z.pow_pos_nonneg; lia). reflexivity.
  - assert (Hn0 : n = 0) by lia.
    assert (Hkb : 0 <= k < E - B) by lia.
    rewrite Hn0, Z.pow_0_r.
    rewrite <- (Z.mul_1_r (Zpos P)) at 1. rewrite rnq_exact by lia.
    replace (E + 0 - B) with (E - B) by lia.
    replace (2 ^ (E - B)) with (2 ^ (E - B - k) * 2 ^ k)
      by (rewrite <- Z.pow_add_r by lia; f_equal; lia).
    rewrite Z.mul_assoc.
    rewrite rnq_exact by (apply Z.pow_pos_nonneg; lia).
    reflexivity.
Qed.

(** ** Order and truncation of binary64 values *)

(** A canonical number has at most 53 digits, exactly 53 unless its
    exponent is the least one. *)
Lemma valid_finite_bounds s m e :
  Float64.valid (S754_finite s m e) = true ->
  -1074 <= e <= 971
  /\ Zpos (digits2_pos m) <= 53
  /\ (-1074 < e -> Zpos (digits2_pos m) = 53).
Proof.
  unfold Float64.valid, valid_binary, bounded, canonical_mantissa.
  intros H. apply andb_true_iff in H as [H1 H2].
  apply Z.eqb_eq in H1. apply Z.leb_le in H2.
  rewrite fexp_binary64 in H1. change (Float64.emax - Float64.prec) with 971 in H2. lia.
Qed.


(** The integer part of [m * 2 ^ e], from the value in units of
    [2 ^ B]. *)
Lemma shiftl_scaled m e B :
  0 <= m -> B <= e -> B <= 0 ->
  Z.shiftl m e = (m * 2 ^ (e - B)) / 2 ^ (- B).
Proof.
  intros Hm HBe HB.
  assert (Hpb : 0 < 2 ^ (- B)) by (apply Z.pow_pos_nonneg; lia).
  destruct (Z_le_gt_dec 0 e) as [He|He].
  - rewrite Z.shiftl_mul_pow2 by lia.
    replace (e - B) with (e + - B) by lia.
    rewrite Z.pow_add_r, Z.mul_assoc, Z.div_mul by lia. reflexivity.
  - rewrite Z.shiftl_div_pow2 by lia.
    replace (- B) with ((- e) + (e - B)) at 1 by lia.
    rewrite Z.pow_add_r by lia.
    rewrite Z.div_mul_cancel_r; [reflexivity | | ].
    + apply Z.pow_nonzero; lia.
    + apply Z.pow_nonzero; lia.
Qed.

(** The integer part of a rounded result; an overflow is at least
    [2 ^ 972]. *)
Lemma trunc_round_result B m e :
  B <= 0 -> B <= e -> 0 <= m ->
  (e <= 971 \/ m = 0 ->
     Float64.trunc (round_result m e) = Some (m * 2 ^ (e - B) / 2 ^ (- B)))
  /\ (971 < e -> 0 < m ->
     Float64.trunc (round_result m e) = None /\ 2 ^ 972 <= m * 2 ^ (e - B) / 2 ^ (- B)).
Proof.
  intros HB HBe Hm.
  assert (Hpb : 0 < 2 ^ (- B)) by (apply Z.pow_pos_nonneg; lia).
  split.
  - intros H. destruct m as [|p|p]; [|..|lia].
    + simpl. rewrite Z.div_0_l by lia. reflexivity.
    + destruct H as [H|H]; [|discriminate].
      cbn [round_result]. rewrite (proj2 (Z.leb_le e 971)) by assumption.
      cbn [Float64.trunc cond_Zopp]. f_equal. apply shiftl_scaled; lia.
  - intros He H0. destruct m as [|p|p]; try lia.
    cbn [round_result]. rewrite (proj2 (Z.leb_gt e 971)) by lia.
    split; [reflexivity|].
    rewrite <- shiftl_scaled by lia.
    rewrite Z.shiftl_mul_pow2 by lia.
    assert (2 ^ 972 <= 2 ^ e) by (apply Z.pow_le_mono_r; lia).
    nia.
Qed.

(** *** Conversion to int64 *)

Lemma to_int64_of_trunc x z :
  Float64.trunc x = Some z -> Float64.fits_int64 z = true -> Float64.to_int64 x = z.
Proof. intros H1 H2. unfold Float64.to_int64. rewrite H1, H2. reflexivity. Qed.




(** The float64 constant 1000. *)
Lemma of_Z_1000 : Float64.of_Z 1000 = S754_finite false 8796093022208000 (-43).
Proof. vm_compute. reflexivity. Qed.


(** ** Facts about the shared word loop *)

Section CollectObjects.
Context {A : Type} (build : gmap string JSON -> A).

Lemma collect_objects_cons wordRaw wordsRaw acc :
  collect_objects build (wordRaw :: wordsRaw) acc =
  collect_objects build wordsRaw
    (match as_object (Some wordRaw) with
     | None => acc
     | Some word => acc ++ [build word]
     end).
Proof. reflexivity. Qed.


End CollectObjects.

(** ** Empty word sequences *)

(** The last test of each parser: an [Ok] outcome carries words. *)
Lemma elevenlabs_parse_words response res :
  ElevenLabs.parse response = Ok res -> StandardResult.Words res <> [].
Proof.
  unfold ElevenLabs.parse. intros H.
  destruct (as_string (response !! "text")); [|discriminate].
  destruct (as_array (response !! "words")); [|discriminate].
  case_bool_decide as Hlen; [discriminate|].
  injection H as <-. simpl. intros E. rewrite E in Hlen. contradiction.
Qed.

Lemma jianying_parse_words response res :
  JianYing.parse response = Ok res -> StandardResult.Words res <> [].
Proof.
  unfold JianYing.parse. intros H.
  destruct (as_object (response !! "data")) as [data|]; [|discriminate].
  destruct (as_array (data !! "utterances")); [|discriminate].
  case_bool_decide as Hlen; [discriminate|].
  injection H as <-. simpl. intros E. rewrite E in Hlen. contradiction.
Qed.

Lemma bijian_parse_words response res :
  Bijian.parse response = Ok res -> StandardResult.Words res <> [].
Proof.
  unfold Bijian.parse. intros H.
  destruct (as_array (response !! "utterances")); [|discriminate].
  case_bool_decide as Hlen; [discriminate|].
  injection H as <-. simpl. intros E. rewrite E in Hlen. contradiction.
Qed.

(** C3. For each of the three backends: when the containers are present
    but extraction leaves no word, [parse] fails with the ParseError
    "no words found in response", whatever text and sentences were
    extracted (the JianYing example has a non-empty text); and a
    successful [Parse] therefore never carries an empty [Words]. *)
Theorem C3_no_words_is_parse_error :
  (forall response text wordsRaw,
      as_string (response !! "text") = Some text ->
      as_array (response !! "words") = Some wordsRaw ->
      ElevenLabs.collect_words wordsRaw [] = [] ->
      ElevenLabs.parse response = Err (ParseError "no words found in response" None))
  /\ (forall response data utterancesRaw,
      as_object (response !! "data") = Some data ->
      as_array (data !! "utterances") = Some utterancesRaw ->
      JianYing.words (fold_left JianYing.utterance_step utterancesRaw
                        (JianYing.mk_acc [] [] [])) = [] ->
      JianYing.parse response = Err (ParseError "no words found in response" None))
  /\ (forall response utterancesRaw,
      as_array (response !! "utterances") = Some utterancesRaw ->
      Bijian.words (fold_left Bijian.utterance_step utterancesRaw
                      (Bijian.mk_acc [] [] [])) = [] ->
      Bijian.parse response = Err (ParseError "no words found in response" None))
  /\ JianYing.textParts (fold_left JianYing.utterance_step
         [JObj {[ "text" := JStr "hello";
                  "start_time" := JNum (Float64.of_Z 0);
                  "end_time" := JNum (Float64.of_Z 900) ]}]
         (JianYing.mk_acc [] [] [])) = ["hello"]
  /\ JianYing.parse Examples.text_without_words
       = Err (ParseError "no words found in response" None)
  /\ (forall raw res, ElevenLabs.Parse raw = Ok res -> StandardResult.Words res <> [])
  /\ (forall raw res, JianYing.Parse raw = Ok res -> StandardResult.Words res <> [])
  /\ (forall raw res, Bijian.Parse raw = Ok res -> StandardResult.Words res <> []).
Proof.
  split; [|split; [|split; [|split; [|split; [|split; [|split]]]]]].
  - intros response text wordsRaw Ht Hw Hnil.
    unfold ElevenLabs.parse. rewrite Ht, Hw, Hnil. reflexivity.
  - intros response data utterancesRaw Hd Hu Hnil.
    unfold JianYing.parse. rewrite Hd, Hu, Hnil. reflexivity.
  - intros response utterancesRaw Hu Hnil.
    unfold Bijian.parse. rewrite Hu, Hnil. reflexivity.
  - vm_compute. reflexivity.
  - vm_compute. reflexivity.
  - intros raw res. unfold ElevenLabs.Parse.
    destruct (as_object (Some raw)); [apply elevenlabs_parse_words | discriminate].
  - intros raw res. unfold JianYing.Parse.
    destruct (as_object (Some raw)); [apply jianying_parse_words | discriminate].
  - intros raw res. unfold Bijian.Parse.
    destruct (as_object (Some raw)); [apply bijian_parse_words | discriminate].
Qed.

Lemma C3_no_words_is_parse_error_witness :
  ElevenLabs.parse {[ "text" := JStr "hi there"; "words" := JArr [JStr "hi"] ]}
    = Err (ParseError "no words found in response" None)
  /\ StandardResult.Words Examples.spec_result <> [].
Proof.
  split.
  - apply (proj1 C3_no_words_is_parse_error _ "hi there" [JStr "hi"]);
      vm_compute; reflexivity.
  - apply (proj1 (proj2 (proj2 (proj2 (proj2 (proj2 C3_no_words_is_parse_error)))))
             (JObj Examples.spec_response)).
    vm_compute. reflexivity.
Defined.

(** ** Fields of the words the parsers build *)

Lemma elevenlabs_word_of_Text word :
  Word.Text (ElevenLabs.word_of word) = string_or_zero (word !! "text").
Proof.
  unfold ElevenLabs.word_of.
  destruct (as_string (word !! "speaker_id")); [case_bool_decide|]; reflexivity.
Qed.

Lemma elevenlabs_word_of_Start word :
  Word.Start (ElevenLabs.word_of word) =
  Float64.to_int64 (Float64.mul (float64_or_zero (word !! "start")) (Float64.of_Z 1000)).
Proof.
  unfold ElevenLabs.word_of.
  destruct (as_string (word !! "speaker_id")); [case_bool_decide|]; reflexivity.
Qed.

Lemma elevenlabs_word_of_End word :
  Word.End (ElevenLabs.word_of word) =
  Float64.to_int64 (Float64.mul (float64_or_zero (word !! "end")) (Float64.of_Z 1000)).
Proof.
  unfold ElevenLabs.word_of.
  destruct (as_string (word !! "speaker_id")); [case_bool_decide|]; reflexivity.
Qed.

Lemma to_int64_zero_scaled :
  Float64.to_int64 (Float64.mul Float64.zero (Float64.of_Z 1000)) = 0.
Proof. vm_compute. reflexivity. Qed.

(** ** Missing fields *)

(** C8, as stated, fails: a word entry without text, start and end is
    normalized to a word with empty text and zero times, and [Parse]
    succeeds. *)
Lemma C8_counterexample :
  (∅ : gmap string JSON) !! "text" = None
  /\ (∅ : gmap string JSON) !! "start" = None
  /\ (∅ : gmap string JSON) !! "end" = None
  /\ ElevenLabs.Parse (JObj Examples.bare_word_response)
     = Ok {| StandardResult.Text := "hi";
             StandardResult.Words :=
               [ {| Word.Text := ""; Word.Start := 0; Word.End := 0; Word.SpeakerID := "" |} ];
             StandardResult.Sentences := [];
             StandardResult.Language := "" |}.
Proof. vm_compute. auto. Qed.

(** C8, amended. A missing or ill-shaped container (ElevenLabs [text]
    and [words]; JianYing [data] and [utterances]; Bijian [utterances];
    a raw result that is not an object) gives a ParseError whose message
    names it.  A word entry's own fields are not required: an absent or
    ill-shaped text (label), start or end is read as the empty string or
    as 0 ms, and an entry that is not an object is skipped. *)
Theorem C8_missing_fields :
  (forall response,
      as_string (response !! "text") = None ->
      ElevenLabs.parse response = Err (ParseError "missing text field in response" None))
  /\ (forall response text,
      as_string (response !! "text") = Some text ->
      as_array (response !! "words") = None ->
      ElevenLabs.parse response = Err (ParseError "missing words field in response" None))
  /\ (forall response,
      as_object (response !! "data") = None ->
      JianYing.parse response = Err (ParseError "missing data field in response" None))
  /\ (forall response data,
      as_object (response !! "data") = Some data ->
      as_array (data !! "utterances") = None ->
      JianYing.parse response = Err (ParseError "missing utterances field in data" None))
  /\ (forall response,
      as_array (response !! "utterances") = None ->
      Bijian.parse response = Err (ParseError "missing utterances field in response" None))
  /\ (forall raw,
      as_object (Some raw) = None ->
      let e := Err (ParseError "invalid raw result type, expected map[string]interface{}" None) in
      ElevenLabs.Parse raw = e /\ JianYing.Parse raw = e /\ Bijian.Parse raw = e)
  /\ (forall word,
      (as_string (word !! "text") = None ->
         Word.Text (ElevenLabs.word_of word) = "" /\ Word.Text (JianYing.word_of word) = "")
      /\ (as_string (word !! "label") = None -> Word.Text (Bijian.word_of word) = "")
      /\ (as_float64 (word !! "start") = None -> Word.Start (ElevenLabs.word_of word) = 0)
      /\ (as_float64 (word !! "end") = None -> Word.End (ElevenLabs.word_of word) = 0)
      /\ (as_float64 (word !! "start_time") = None ->
         Word.Start (JianYing.word_of word) = 0 /\ Word.Start (Bijian.word_of word) = 0)
      /\ (as_float64 (word !! "end_time") = None ->
         Word.End (JianYing.word_of word) = 0 /\ Word.End (Bijian.word_of word) = 0))
  /\ (forall wordRaw wordsRaw acc,
      as_object (Some wordRaw) = None ->
      ElevenLabs.collect_words (wordRaw :: wordsRaw) acc = ElevenLabs.collect_words wordsRaw acc
      /\ JianYing.collect_words (wordRaw :: wordsRaw) acc = JianYing.collect_words wordsRaw acc
      /\ Bijian.collect_words (wordRaw :: wordsRaw) acc = Bijian.collect_words wordsRaw acc).
Proof.
  split; [|split; [|split; [|split; [|split; [|split; [|split]]]]]].
  - intros response H. unfold ElevenLabs.parse. rewrite H. reflexivity.
  - intros response text Ht H. unfold ElevenLabs.parse. rewrite Ht, H. reflexivity.
  - intros response H. unfold JianYing.parse. rewrite H. reflexivity.
  - intros response data Hd H. unfold JianYing.parse. rewrite Hd, H. reflexivity.
  - intros response H. unfold Bijian.parse. rewrite H. reflexivity.
  - intros raw H e. unfold ElevenLabs.Parse, JianYing.Parse, Bijian.Parse.
    rewrite H. auto.
  - intros word. split; [|split; [|split; [|split; [|split]]]]; intros H.
    + rewrite elevenlabs_word_of_Text. unfold JianYing.word_of, string_or_zero.
      simpl. rewrite H. auto.
    + unfold Bijian.word_of, string_or_zero. simpl. rewrite H. reflexivity.
    + rewrite elevenlabs_word_of_Start. unfold float64_or_zero. rewrite H.
      apply to_int64_zero_scaled.
    + rewrite elevenlabs_word_of_End. unfold float64_or_zero. rewrite H.
      apply to_int64_zero_scaled.
    + unfold JianYing.word_of, Bijian.word_of, float64_or_zero. simpl.
      rewrite H. auto.
    + unfold JianYing.word_of, Bijian.word_of, float64_or_zero. simpl.
      rewrite H. auto.
  - intros wordRaw wordsRaw acc H.
    unfold ElevenLabs.collect_words, JianYing.collect_words, Bijian.collect_words.
    rewrite !collect_objects_cons, H. auto.
Qed.

Lemma C8_missing_fields_witness :
  ElevenLabs.parse {[ "words" := JArr [] ]}
    = Err (ParseError "missing text field in response" None)
  /\ JianYing.parse {[ "data" := JObj {[ "utterances" := JStr "none" ]} ]}
    = Err (ParseError "missing utterances field in data" None).
Proof.
  split.
  - apply (proj1 C8_missing_fields). vm_compute. reflexivity.
  - apply (proj1 (proj2 (proj2 (proj2 C8_missing_fields)))
             _ {[ "utterances" := JStr "none" ]}); vm_compute; reflexivity.
Defined.

(** ** Option validation at the provider entry points *)

(** [Validate] leaves in place the options with the default filled in,
    whichever way it returns. *)
Lemma jianying_validate_fst o :
  fst (JianYing.Validate o) =
  if Float64.eqb (JianYing.EndTime o) (Float64.of_Z 0)
  then {| JianYing.StartTime := JianYing.StartTime o;
          JianYing.EndTime := Float64.of_Z 6000 |}
  else o.
Proof.
  unfold JianYing.Validate.
  repeat match goal with |- context [if ?b then _ else _] => destruct b end;
    reflexivity.
Qed.

(** A failed validation ends [Fetch] at once. *)
Lemma jianying_fetch_invalid fetch audioPath o o' e env tr :
  JianYing.Validate o = (o', Some e) ->
  JianYing.Fetch fetch audioPath (OwnPointer (Some o)) env tr = (Err e, tr).
Proof.
  intros H. unfold JianYing.Fetch. simpl. rewrite H. reflexivity.
Qed.

(** C9. JianYing's [Validate] works on the options in place and is run
    by [Fetch] before the workflow: with StartTime=10 and EndTime=5 it
    returns the ValidationError tagged "StartTime/EndTime", and [Fetch]
    returns that error without performing any effect, whatever the
    workflow is; with both times zero it stores 6000 in EndTime and
    returns no error.  In general an inverted or empty range is
    rejected, and every rejection ends [Fetch] before the workflow. *)
Theorem C9_validate_before_network :
  JianYing.Validate Examples.inverted_range
    = (Examples.inverted_range,
       Some (ValidationError "StartTime/EndTime" "StartTime must be less than EndTime"))
  /\ (forall fetch audioPath env tr,
       JianYing.Fetch fetch audioPath (OwnPointer (Some Examples.inverted_range)) env tr
       = (Err (ValidationError "StartTime/EndTime" "StartTime must be less than EndTime"), tr))
  /\ JianYing.Validate Examples.all_zero_times
    = ({| JianYing.StartTime := Float64.of_Z 0; JianYing.EndTime := Float64.of_Z 6000 |}, None)
  /\ (forall o,
       let o' := fst (JianYing.Validate o) in
       Float64.geb (JianYing.StartTime o') (JianYing.EndTime o') = true ->
       exists field message,
         snd (JianYing.Validate o) = Some (ValidationError field message))
  /\ (forall o o' e fetch audioPath env tr,
       JianYing.Validate o = (o', Some e) ->
       JianYing.Fetch fetch audioPath (OwnPointer (Some o)) env tr = (Err e, tr)).
Proof.
  split; [|split; [|split; [|split]]].
  - vm_compute. reflexivity.
  - intros. apply jianying_fetch_invalid with (o' := Examples.inverted_range).
    vm_compute. reflexivity.
  - vm_compute. reflexivity.
  - intros o o'. subst o'. rewrite jianying_validate_fst.
    unfold JianYing.Validate.
    set (o1 := if Float64.eqb (JianYing.EndTime o) (Float64.of_Z 0) then _ else o).
    intros Hge.
    destruct (Float64.ltb (JianYing.StartTime o1) (Float64.of_Z 0)); [simpl; eauto|].
    destruct (Float64.ltb (JianYing.EndTime o1) (Float64.of_Z 0)); [simpl; eauto|].
    rewrite Hge. simpl. eauto.
  - intros. eapply jianying_fetch_invalid; eassumption.
Qed.

Lemma C9_validate_before_network_witness :
  exists field message,
    snd (JianYing.Validate
           {| JianYing.StartTime := Float64.of_Z 7; JianYing.EndTime := Float64.of_Z 7 |})
    = Some (ValidationError field message).
Proof.
  apply (proj1 (proj2 (proj2 (proj2 C9_validate_before_network)))
           {| JianYing.StartTime := Float64.of_Z 7; JianYing.EndTime := Float64.of_Z 7 |}).
  vm_compute. reflexivity.
Defined.

(** C10. Each provider's [Fetch], given the nil interface, a nil
    pointer or options of another type, raises no error of its own: it
    runs the workflow on the zero options as [Validate] completes them
    (language "auto"; times 0 and 6000; no cookie). *)
Theorem C10_default_options :
  forall audioPath : string,
    (forall fetch opts,
        not_own_options opts ->
        ElevenLabs.Fetch fetch audioPath opts
        = fetch audioPath {| ElevenLabs.LanguageCode := "auto";
                             ElevenLabs.TagAudioEvents := false |})
    /\ (forall fetch opts,
        not_own_options opts ->
        JianYing.Fetch fetch audioPath opts
        = fetch audioPath {| JianYing.StartTime := Float64.of_Z 0;
                             JianYing.EndTime := Float64.of_Z 6000 |})
    /\ (forall fetch opts,
        not_own_options opts ->
        Bijian.Fetch fetch audioPath opts
        = fetch audioPath {| Bijian.Cookie := "" |}).
Proof.
  intros audioPath. split; [|split]; intros fetch opts Hopts;
    destruct opts as [|[o|]|name]; try contradiction; reflexivity.
Qed.

Lemma C10_default_options_witness :
  JianYing.Fetch Examples.idle_fetch "audio.mp3" (OtherType "*elevenlabs.Options")
  = Examples.idle_fetch "audio.mp3" {| JianYing.StartTime := Float64.of_Z 0;
                                       JianYing.EndTime := Float64.of_Z 6000 |}.
Proof.
  apply (proj1 (proj2 (C10_default_options "audio.mp3"))). exact I.
Defined.

(** ** The poll loop of the chunked-upload backend *)

Section PollLoop.
Variables (env : Env) (taskID : string) (opts : Bijian.Options).

(** One iteration, spelled out. *)
Lemma poll_loop_S n tr :
  Bijian.poll_loop (S n) taskID opts env tr =
  match ctx_err env (length tr) with
  | Some c => (Err (ContextError c), tr)
  | None =>
      match request_error env (Bijian.queryURL taskID) with
      | Some e => (Err e, tr)
      | None =>
          let tr1 := tr ++ [EvRequest (Bijian.queryRequest taskID opts)] in
          match round_trip env (length tr) (Bijian.queryRequest taskID opts) with
          | Err e => (Err e, tr1)
          | Ok resp =>
              if bool_decide (StatusCode resp ≠ 200)
              then (Err (APIError (StatusCode resp) (ResponseBody resp)), tr1)
              else
                match json_decode env (ResponseBody resp) with
                | Err e => (Err (ErrorfWrap "failed to parse JSON response" e), tr1)
                | Ok obj =>
                    match Bijian.examine env obj with
                    | Bijian.Return out => (out, tr1)
                    | Bijian.Continue =>
                        Bijian.poll_loop n taskID opts env (tr1 ++ [EvSleep 1000])
                    end
                end
          end
      end
  end.
Proof.
  cbn [Bijian.poll_loop]. unfold bind, ctx_check, ret.
  destruct (ctx_err env (length tr)); [reflexivity|].
  unfold Bijian.queryResult, bind, ask, client_do, ret.
  destruct (request_error env (Bijian.queryURL taskID)); [reflexivity|].
  destruct (round_trip env (length tr) (Bijian.queryRequest taskID opts)) as [resp|e];
    [|reflexivity].
  case_bool_decide; [reflexivity|].
  destruct (json_decode env (ResponseBody resp)); [|reflexivity].
  destruct (Bijian.examine env a); reflexivity.
Qed.

(** An attempt that finds the task in progress costs one request and
    one second, and the loop goes on. *)
Lemma poll_loop_pending n tr :
  request_error env (Bijian.queryURL taskID) = None ->
  ctx_err env (length tr) = None ->
  pending_reply env (round_trip env (length tr) (Bijian.queryRequest taskID opts)) ->
  Bijian.poll_loop (S n) taskID opts env tr =
  Bijian.poll_loop n taskID opts env (tr ++ attempts (Bijian.queryRequest taskID opts) 1).
Proof.
  intros Hurl Hctx (resp & obj & data & state & Hr & Hs & Hd & Hdata & Hstate & Hne).
  rewrite poll_loop_S, Hctx, Hurl. cbn zeta. rewrite Hr.
  rewrite bool_decide_eq_false_2 by (intros H; apply H; exact Hs).
  rewrite Hd. unfold Bijian.examine. rewrite Hdata, Hstate, Hne.
  simpl. rewrite <- app_assoc. reflexivity.
Qed.

Lemma length_attempts r k : length (attempts r k) = (2 * k)%nat.
Proof. induction k as [|k IH]; simpl; [reflexivity|]. rewrite IH. lia. Qed.

(** So do [k] of them in a row. *)
Lemma poll_loop_pending_prefix k : forall n tr,
  request_error env (Bijian.queryURL taskID) = None ->
  pending_attempts env taskID opts tr k ->
  Bijian.poll_loop (k + n) taskID opts env tr =
  Bijian.poll_loop n taskID opts env (tr ++ attempts (Bijian.queryRequest taskID opts) k).
Proof.
  induction k as [|k IH]; intros n tr Hurl Hp.
  - simpl. rewrite app_nil_r. reflexivity.
  - change (S k + n)%nat with (S (k + n)).
    destruct (Hp 0%nat) as [Hctx Hrep]; [lia|].
    rewrite Nat.mul_0_r, Nat.add_0_r in Hctx, Hrep.
    rewrite poll_loop_pending by assumption.
    rewrite IH; [|assumption|].
    + simpl. rewrite <- app_assoc. reflexivity.
    + intros j Hj. destruct (Hp (S j)) as [Hc Hr]; [lia|].
      rewrite length_app. simpl length.
      replace (length tr + 2 + 2 * j)%nat with (length tr + 2 * S j)%nat by lia.
      split; assumption.
Qed.

Lemma requests_app tr1 tr2 : requests (tr1 ++ tr2) = (requests tr1 + requests tr2)%nat.
Proof. unfold requests. rewrite filter_app, length_app. reflexivity. Qed.

Lemma sleeps_app tr1 tr2 : sleeps (tr1 ++ tr2) = (sleeps tr1 + sleeps tr2)%nat.
Proof. unfold sleeps. rewrite filter_app, length_app. reflexivity. Qed.

Lemma requests_attempts r k : requests (attempts r k) = k.
Proof.
  induction k as [|k IH]; [reflexivity|].
  change (attempts r (S k)) with ([EvRequest r; EvSleep 1000] ++ attempts r k).
  rewrite requests_app, IH. reflexivity.
Qed.

Lemma sleeps_attempts r k : sleeps (attempts r k) = k.
Proof.
  induction k as [|k IH]; [reflexivity|].
  change (attempts r (S k)) with ([EvRequest r; EvSleep 1000] ++ attempts r k).
  rewrite sleeps_app, IH. reflexivity.
Qed.

(** Whatever the world does, [n] iterations send at most [n]
    requests. *)
Lemma poll_loop_requests_bound n : forall tr,
  (requests (snd (Bijian.poll_loop n taskID opts env tr)) <= requests tr + n)%nat.
Proof.
  induction n as [|n IH]; intros tr; [simpl; lia|].
  rewrite poll_loop_S.
  assert (H1 : requests (tr ++ [EvRequest (Bijian.queryRequest taskID opts)]) = (requests tr + 1)%nat)
    by (rewrite requests_app; reflexivity).
  destruct (ctx_err env (length tr)); [simpl; lia|].
  destruct (request_error env (Bijian.queryURL taskID)); [simpl; lia|].
  cbn zeta.
  destruct (round_trip env (length tr) (Bijian.queryRequest taskID opts)) as [resp|e]; [|simpl; lia].
  case_bool_decide; [simpl; lia|].
  destruct (json_decode env (ResponseBody resp)) as [obj|e]; [|simpl; lia].
  destruct (Bijian.examine env obj); [simpl; lia|].
  etransitivity; [apply IH|].
  rewrite requests_app, H1.
  change (requests [EvSleep 1000]) with 0%nat. lia.
Qed.

End PollLoop.

(** C5. Against a status endpoint that never reports state 4, and with
    a context that is never done, [pollResult] fails with the error
    "polling timeout after 500 attempts" after 500 status requests, each
    followed by a sleep of one second and nothing else; and in no world
    at all does it send more than 500 requests. *)
Theorem C5_poll_attempt_cap env taskID opts tr :
  request_error env (Bijian.queryURL taskID) = None ->
  pending_attempts env taskID opts tr 500 ->
  let req := Bijian.queryRequest taskID opts in
  Bijian.pollResult taskID opts env tr
    = (Err (Errorf "polling timeout after 500 attempts"), tr ++ attempts req 500)
  /\ requests (attempts req 500) = 500%nat
  /\ sleeps (attempts req 500) = 500%nat
  /\ (forall env' tr',
        (requests (snd (Bijian.pollResult taskID opts env' tr')) <= requests tr' + 500)%nat).
Proof.
  intros Hurl Hp req. split; [|split; [|split]].
  - unfold Bijian.pollResult.
    change 500%nat with (500 + 0)%nat at 1.
    rewrite poll_loop_pending_prefix by assumption. reflexivity.
  - apply requests_attempts.
  - apply sleeps_attempts.
  - intros env' tr'. apply poll_loop_requests_bound.
Qed.

Lemma C5_poll_attempt_cap_witness :
  Bijian.pollResult "task" Examples.no_cookie Examples.always_pending_env []
  = (Err (Errorf "polling timeout after 500 attempts"),
     [] ++ attempts (Bijian.queryRequest "task" Examples.no_cookie) 500).
Proof.
  refine (proj1 (C5_poll_attempt_cap Examples.always_pending_env "task"
                   Examples.no_cookie [] eq_refl _)).
  intros j _. split; [reflexivity|].
  exists {| StatusCode := 200; ResponseBody := "pending" |},
         {[ "data" := JObj {[ "state" := JNum (Float64.of_Z 1) ]} ]},
         {[ "state" := JNum (Float64.of_Z 1) ]},
         (Float64.of_Z 1).
  split; [reflexivity|]. split; [reflexivity|].
  repeat (split; [vm_compute; reflexivity|]). vm_compute. reflexivity.
Defined.

(** C6. After [k < 500] attempts that found the task in progress, the
    next attempt is settled by the status it reads: with [data.state]
    equal to 4 the loop returns at once what decoding [data.result] of
    that same response gives (the decoded object, or an error when the
    string is missing or does not decode); with [data] or a numeric
    [data.state] missing it returns an error at once; in each of these
    cases the request of this attempt is the last effect.  With any
    other numeric state it sleeps one second and goes on with the
    attempts that remain. *)
Theorem C6_attempt_settled_by_status env taskID opts tr k resp obj :
  (k < 500)%nat ->
  request_error env (Bijian.queryURL taskID) = None ->
  pending_attempts env taskID opts tr k ->
  let req := Bijian.queryRequest taskID opts in
  ctx_err env (length tr + 2 * k) = None ->
  round_trip env (length tr + 2 * k) req = Ok resp ->
  StatusCode resp = 200 ->
  json_decode env (ResponseBody resp) = Ok obj ->
  let run := Bijian.pollResult taskID opts env tr in
  let tr' := tr ++ attempts req k ++ [EvRequest req] in
  (forall data state,
      as_object (obj !! "data") = Some data ->
      as_float64 (data !! "state") = Some state ->
      Float64.eqb state (Float64.of_Z 4) = true ->
      (forall resultStr result,
          as_string (data !! "result") = Some resultStr ->
          json_unmarshal env resultStr = Ok result ->
          run = (Ok result, tr'))
      /\ (forall resultStr e,
          as_string (data !! "result") = Some resultStr ->
          json_unmarshal env resultStr = Err e ->
          run = (Err (ErrorfWrap "failed to parse result JSON" e), tr'))
      /\ (as_string (data !! "result") = None ->
          run = (Err (Errorf "missing result in response"), tr')))
  /\ (forall data state,
      as_object (obj !! "data") = Some data ->
      as_float64 (data !! "state") = Some state ->
      Float64.eqb state (Float64.of_Z 4) = false ->
      run = Bijian.poll_loop (499 - k) taskID opts env (tr' ++ [EvSleep 1000]))
  /\ (as_object (obj !! "data") = None ->
      run = (Err (Errorf "missing data field in response"), tr'))
  /\ (forall data,
      as_object (obj !! "data") = Some data ->
      as_float64 (data !! "state") = None ->
      run = (Err (Errorf "missing state in response"), tr')).
Proof.
  intros Hk Hurl Hp req Hctx Hrt Hst Hdec run tr'.
  assert (Hrun : run =
    match Bijian.examine env obj with
    | Bijian.Return out => (out, tr')
    | Bijian.Continue => Bijian.poll_loop (499 - k) taskID opts env (tr' ++ [EvSleep 1000])
    end).
  { subst run tr'. unfold Bijian.pollResult.
    replace 500%nat with (k + S (499 - k))%nat at 1 by lia.
    rewrite poll_loop_pending_prefix by assumption.
    rewrite poll_loop_S, length_app, length_attempts.
    fold req. rewrite Hctx, Hurl. cbn zeta. rewrite Hrt.
    rewrite bool_decide_eq_false_2 by (intros H; apply H; exact Hst).
    rewrite Hdec, <- app_assoc. reflexivity. }
  rewrite Hrun. unfold Bijian.examine.
  split; [|split; [|split]].
  - intros data state Hd Hs H4. rewrite Hd, Hs, H4.
    split; [|split].
    + intros resultStr result Hr Hu. rewrite Hr, Hu. reflexivity.
    + intros resultStr e Hr Hu. rewrite Hr, Hu. reflexivity.
    + intros Hr. rewrite Hr. reflexivity.
  - intros data state Hd Hs H4. rewrite Hd, Hs, H4. reflexivity.
  - intros Hd. rewrite Hd. reflexivity.
  - intros data Hd Hs. rewrite Hd, Hs. reflexivity.
Qed.

(** The scenario of the specification: "pending" twice, then "complete":
    the loop returns the payload of the third response after exactly
    three requests. *)
Lemma C6_attempt_settled_by_status_witness :
  let req := Bijian.queryRequest "task" Examples.no_cookie in
  Bijian.pollResult "task" Examples.no_cookie Examples.scenario_env []
  = (Ok Examples.transcript,
     [EvRequest req; EvSleep 1000; EvRequest req; EvSleep 1000; EvRequest req]).
Proof.
  intros req.
  change (Bijian.pollResult "task" Examples.no_cookie Examples.scenario_env []
          = (Ok Examples.transcript, [] ++ attempts req 2 ++ [EvRequest req])).
  assert (Hp : pending_attempts Examples.scenario_env "task" Examples.no_cookie [] 2).
  { intros j Hj. split; [reflexivity|].
    exists {| StatusCode := 200; ResponseBody := "pending" |},
           {[ "data" := JObj {[ "state" := JNum (Float64.of_Z 1) ]} ]},
           {[ "state" := JNum (Float64.of_Z 1) ]},
           (Float64.of_Z 1).
    assert (Hlt : (0 + 2 * j <? 4)%nat = true) by (apply Nat.ltb_lt; lia).
    split; [|repeat (split; [vm_compute; reflexivity|]); vm_compute; reflexivity].
    unfold Examples.scenario_env, round_trip. simpl length. rewrite Hlt. reflexivity. }
  pose proof (C6_attempt_settled_by_status Examples.scenario_env "task" Examples.no_cookie [] 2
       {| StatusCode := 200; ResponseBody := "complete" |}
       {[ "data" := JObj {[ "state" := JNum (Float64.of_Z 4);
                            "result" := JStr "transcript" ]} ]}
       ltac:(lia) eq_refl Hp eq_refl eq_refl eq_refl ltac:(vm_compute; reflexivity)) as H.
  destruct H as [H _].
  destruct (H {[ "state" := JNum (Float64.of_Z 4); "result" := JStr "transcript" ]}
              (Float64.of_Z 4)) as [H1 _]; [vm_compute; reflexivity..|].
  apply (H1 "transcript" Examples.transcript); vm_compute; reflexivity.
Defined.

(** C7. The context is looked at before every attempt.  If it is found
    done before attempt [k + 1], whatever [k < 500] attempts came
    before, no further request is sent and the call returns
    [ctx.Err()], which is not the timeout error of the loop. *)
Theorem C7_cancellation_before_attempt env taskID opts tr k c :
  (k < 500)%nat ->
  request_error env (Bijian.queryURL taskID) = None ->
  pending_attempts env taskID opts tr k ->
  ctx_err env (length tr + 2 * k) = Some c ->
  let req := Bijian.queryRequest taskID opts in
  let run := Bijian.pollResult taskID opts env tr in
  run = (Err (ContextError c), tr ++ attempts req k)
  /\ requests (snd run) = (requests tr + k)%nat
  /\ fst run <> Err (Errorf "polling timeout after 500 attempts").
Proof.
  intros Hk Hurl Hp Hctx req run.
  assert (Hrun : run = (Err (ContextError c), tr ++ attempts req k)).
  { subst run. unfold Bijian.pollResult.
    replace 500%nat with (k + S (499 - k))%nat at 1 by lia.
    rewrite poll_loop_pending_prefix by assumption.
    rewrite poll_loop_S, length_app, length_attempts, Hctx. reflexivity. }
  rewrite Hrun. split; [reflexivity|]. split.
  - simpl. rewrite requests_app, requests_attempts. reflexivity.
  - simpl. discriminate.
Qed.

Lemma C7_cancellation_before_attempt_witness :
  let req := Bijian.queryRequest "task" Examples.no_cookie in
  Bijian.pollResult "task" Examples.no_cookie Examples.cancelled_env []
  = (Err (ContextError Canceled),
     [EvRequest req; EvSleep 1000; EvRequest req; EvSleep 1000]).
Proof.
  intros req.
  change (Bijian.pollResult "task" Examples.no_cookie Examples.cancelled_env []
          = (Err (ContextError Canceled), [] ++ attempts req 2)).
  refine (proj1 (C7_cancellation_before_attempt Examples.cancelled_env "task"
                   Examples.no_cookie [] 2 Canceled _ eq_refl _ eq_refl)).
  - lia.
  - intros j Hj.
    assert (Hlt : (0 + 2 * j <? 4)%nat = true) by (apply Nat.ltb_lt; lia).
    split.
    + unfold Examples.cancelled_env, ctx_err. simpl length. rewrite Hlt. reflexivity.
    + exists {| StatusCode := 200; ResponseBody := "pending" |},
             {[ "data" := JObj {[ "state" := JNum (Float64.of_Z 1) ]} ]},
             {[ "state" := JNum (Float64.of_Z 1) ]},
             (Float64.of_Z 1).
      split; [reflexivity|]. split; [reflexivity|].
      repeat (split; [vm_compute; reflexivity|]). vm_compute. reflexivity.
Defined.

(** ** The task-query step of the signed multi-step backend *)

(** C4, as stated, fails: against an endpoint that keeps answering that
    nothing is ready, [queryTask] sends one request, never sleeps, and
    returns that answer as a success; it neither repeats the request
    until the 500th attempt nor fails with a timeout. *)
Lemma C4_counterexample :
  let run := JianYing.queryTask "7301" "3963278516897751" Examples.in_progress_env [] in
  fst run = Ok Examples.in_progress
  /\ requests (snd run) = 1%nat
  /\ sleeps (snd run) = 0%nat
  /\ requests (snd run) <> 500%nat
  /\ (forall e, fst run <> Err e).
Proof.
  vm_compute. split; [reflexivity|]. split; [reflexivity|]. split; [reflexivity|].
  split; [lia | discriminate].
Qed.

(** The request [queryTask] builds from the clock reading [now]: the
    headers of [buildHeaders] over [Content-Type], with the signature
    of the last seven bytes of the query path, and the task identifier
    in the body. *)
Lemma jianying_query_headers (sign deviceTime tdid : string) :
  JianYing.buildHeaders sign deviceTime tdid ∪ {[ "Content-Type" := "application/json" ]}
  = ({[ "Content-Type" := "application/json";
        "User-Agent" := "Cronet/TTNetVersion:d4572e53 2024-06-12 QuicVersion:4bf243e0 2023-04-17";
        "appvr" := "6.6.0";
        "device-time" := deviceTime;
        "pf" := "4";
        "sign" := sign;
        "sign-ver" := "1";
        "tdid" := tdid ]} : gmap string string).
Proof. vm_compute. reflexivity. Qed.

(** C4, amended. The polling policy belongs to the chunked-upload
    backend alone.  [queryTask] of the signed multi-step backend sends
    at most one request and never sleeps.  When the request can be
    built it is one signed POST to the query endpoint: its body holds
    the task identifier, and its headers the device time (the clock in
    decimal), the device identifier and, as [sign], the MD5 digest of
    [9e2c|e/query|4|6.6.0|<device time>|<tdid>|11ac].  A reply with
    status 200 whose body decodes with [ret] equal to "0" is returned
    as the result, whatever it says about the task. *)
Theorem C4_single_query env queryID tdid tr :
  let run := JianYing.queryTask queryID tdid env tr in
  let deviceTime := pretty (unix_now env (length tr)) in
  let req :=
    {| Method := "POST";
       URL := "https://lv-pc-api-sinfonlinec.ulikecam.com/lv/v1/audio_subtitle/query";
       Header :=
         {[ "Content-Type" := "application/json";
            "User-Agent" := "Cronet/TTNetVersion:d4572e53 2024-06-12 QuicVersion:4bf243e0 2023-04-17";
            "appvr" := "6.6.0";
            "device-time" := deviceTime;
            "pf" := "4";
            "sign" := md5_hex env ("9e2c|e/query|4|6.6.0|" +:+ deviceTime +:+ "|"
                                     +:+ tdid +:+ "|11ac");
            "sign-ver" := "1";
            "tdid" := tdid ]};
       Body := Some {[ "id" := JStr queryID;
                       "pack_options" := JObj {[ "need_attribute" := JBool true ]} ]} |} in
  (requests (snd run) <= requests tr + 1)%nat
  /\ sleeps (snd run) = sleeps tr
  /\ (request_error env JianYing.apiQuery = None ->
      snd run = tr ++ [EvRequest req]
      /\ (forall e, round_trip env (length tr) req = Err e -> fst run = Err e)
      /\ (forall resp result,
            round_trip env (length tr) req = Ok resp ->
            StatusCode resp = 200 ->
            ResponseBody resp <> "" ->
            json_unmarshal env (ResponseBody resp) = Ok result ->
            JianYing.getStringField result "ret" = "0" ->
            fst run = Ok result)).
Proof.
  intros run deviceTime req. subst run.
  unfold JianYing.queryTask, JianYing.generateSign, JianYing.doRequest.
  unfold bind, time_now_unix, ask, ret, client_do.
  change (JianYing.last7 "/lv/v1/audio_subtitle/query") with "e/query".
  fold deviceTime.
  rewrite jianying_query_headers.
  change ("9e2c|" +:+ "e/query" +:+ "|" +:+ "4" +:+ "|" +:+ "6.6.0" +:+ "|"
            +:+ deviceTime +:+ "|" +:+ tdid +:+ "|11ac")
    with ("9e2c|e/query|4|6.6.0|" +:+ deviceTime +:+ "|" +:+ tdid +:+ "|11ac").
  change JianYing.apiQuery
    with "https://lv-pc-api-sinfonlinec.ulikecam.com/lv/v1/audio_subtitle/query".
  fold req.
  assert (H1 : requests (tr ++ [EvRequest req]) = (requests tr + 1)%nat)
    by (rewrite requests_app; reflexivity).
  assert (H2 : sleeps (tr ++ [EvRequest req]) = sleeps tr)
    by (rewrite sleeps_app; change (sleeps [EvRequest req]) with 0%nat; lia).
  destruct (request_error env _) as [e0|] eqn:Hurl.
  { simpl. split; [lia|]. split; [reflexivity|]. discriminate. }
  assert (Hframe : forall out : result (gmap string JSON),
    ((forall e, round_trip env (length tr) req = Err e -> out = Err e)
     /\ (forall resp result,
           round_trip env (length tr) req = Ok resp ->
           StatusCode resp = 200 ->
           ResponseBody resp <> "" ->
           json_unmarshal env (ResponseBody resp) = Ok result ->
           JianYing.getStringField result "ret" = "0" ->
           out = Ok result)) ->
    (requests (snd (out, tr ++ [EvRequest req])) <= requests tr + 1)%nat
    /\ sleeps (snd (out, tr ++ [EvRequest req])) = sleeps tr
    /\ (@None error = None ->
        snd (out, tr ++ [EvRequest req]) = tr ++ [EvRequest req]
        /\ (forall e, round_trip env (length tr) req = Err e ->
              fst (out, tr ++ [EvRequest req]) = Err e)
        /\ (forall resp result,
              round_trip env (length tr) req = Ok resp ->
              StatusCode resp = 200 ->
              ResponseBody resp <> "" ->
              json_unmarshal env (ResponseBody resp) = Ok result ->
              JianYing.getStringField result "ret" = "0" ->
              fst (out, tr ++ [EvRequest req]) = Ok result))).
  { intros out [Herr Hok]. simpl. split; [lia|]. split; [exact H2|].
    intros _. auto. }
  destruct (round_trip env (length tr) req) as [resp|e] eqn:Hrt.
  - case_bool_decide as Hst.
    + apply Hframe. split; [discriminate|].
      intros resp' result Hr Hs. injection Hr as <-. contradiction.
    + destruct (if bool_decide (ResponseBody resp ≠ "")
                then json_unmarshal env (ResponseBody resp) else Ok ∅)
        as [result|e] eqn:Hdec.
      * destruct (bool_decide (JianYing.getStringField result "ret" ≠ "0")) eqn:Hret;
          apply Hframe; (split; [discriminate|]);
          intros resp' result' Hr Hs Hb Hu Hret'; injection Hr as <-;
          rewrite bool_decide_eq_true_2 in Hdec by assumption;
          rewrite Hu in Hdec; injection Hdec as <-.
        -- apply bool_decide_eq_true_1 in Hret. contradiction.
        -- reflexivity.
      * apply Hframe. split; [discriminate|].
        intros resp' result' Hr Hs Hb Hu Hret'. injection Hr as <-.
        rewrite bool_decide_eq_true_2 in Hdec by assumption.
        rewrite Hu in Hdec. discriminate.
  - apply Hframe. split; [|discriminate].
    intros e' He'. injection He' as <-. reflexivity.
Qed.

Lemma C4_single_query_witness :
  snd (JianYing.queryTask "7301" "3963278516897751" Examples.in_progress_env [])
  = [] ++ [EvRequest
     {| Method := "POST";
        URL := "https://lv-pc-api-sinfonlinec.ulikecam.com/lv/v1/audio_subtitle/query";
        Header :=
          {[ "Content-Type" := "application/json";
             "User-Agent" := "Cronet/TTNetVersion:d4572e53 2024-06-12 QuicVersion:4bf243e0 2023-04-17";
             "appvr" := "6.6.0";
             "device-time" := pretty (unix_now Examples.in_progress_env 0);
             "pf" := "4";
             "sign" := md5_hex Examples.in_progress_env
                         ("9e2c|e/query|4|6.6.0|"
                            +:+ pretty (unix_now Examples.in_progress_env 0) +:+ "|"
                            +:+ "3963278516897751" +:+ "|11ac");
             "sign-ver" := "1";
             "tdid" := "3963278516897751" ]};
        Body := Some {[ "id" := JStr "7301";
                        "pack_options" := JObj {[ "need_attribute" := JBool true ]} ]} |}].
Proof.
  exact (proj1 (proj2 (proj2 (C4_single_query Examples.in_progress_env
                                 "7301" "3963278516897751" [])) eq_refl)).
Defined.

(** ** Signs, order and exactness of the conversions *)

(** Rounding does not look at the sign. *)
Lemma binary_round_aux_opp s m e l :
  binary_round_aux 53 1024 (negb s) m e l = SFopp (binary_round_aux 53 1024 s m e l).
Proof.
  unfold binary_round_aux.
  destruct (shr_fexp 53 1024 m e l) as [mrs e'].
  destruct (shr_fexp 53 1024 _ e' loc_Exact) as [mrs' e''].
  destruct (shr_m mrs'); [reflexivity| |reflexivity].
  destruct (e'' <=? 1024 - 53); reflexivity.
Qed.

Lemma mul_1000_opp x :
  Float64.mul (SFopp x) (Float64.of_Z 1000) = SFopp (Float64.mul x (Float64.of_Z 1000)).
Proof.
  rewrite of_Z_1000. destruct x as [[]|[]| |b m e]; try reflexivity.
  unfold Float64.mul. cbn [SFopp SFmul].
  replace (xorb (negb b) false) with (negb (xorb b false)) by (destruct b; reflexivity).
  apply binary_round_aux_opp.
Qed.

Lemma trunc_opp x : Float64.trunc (SFopp x) = option_map Z.opp (Float64.trunc x).
Proof.
  destruct x as [b|b| |b m e]; try reflexivity.
  cbn [SFopp Float64.trunc option_map]. f_equal. destruct b; cbn [negb cond_Zopp]; lia.
Qed.

(** The product of a canonical positive number by 1000, in units of
    [2 ^ -1117]: the rounding of the exact product. *)
Lemma mul_1000_value m1 e1 :
  -1074 <= e1 ->
  exists m e',
    0 <= m /\ -1117 <= e'
    /\ m * 2 ^ (e' - -1117)
       = round_val (-1117) (Zpos m1 * 8796093022208000 * 2 ^ (e1 + 1074))
    /\ Float64.mul (S754_finite false m1 e1) (Float64.of_Z 1000) = round_result m e'.
Proof.
  intros He1. rewrite of_Z_1000.
  destruct (binary_round_aux_value (-1117) (m1 * 8796093022208000) (e1 + -43))
    as (m & e' & Hm & He' & Hval & Hres); [lia..|].
  exists m, e'. split; [assumption|]. split; [assumption|]. split; [|exact Hres].
  rewrite Hval. f_equal. rewrite Pos2Z.inj_mul. f_equal. f_equal. lia.
Qed.



Lemma round_val_nonneg B V : B <= -1074 -> 0 <= V -> 0 <= round_val B V.
Proof.
  intros HB HV. unfold round_val.
  assert (0 < 2 ^ ulp_exp B V) by (apply Z.pow_pos_nonneg; unfold ulp_exp; lia).
  apply Z.mul_nonneg_nonneg; [|lia].
  apply rnq_ge_multiple; lia.
Qed.

(** *** Order *)











(** *** Exactness *)

(** Whole numbers below [2 ^ 53] are binary64 numbers: rounding leaves
    them as they are. *)
Lemma round_val_integer B n :
  B <= -1074 -> 0 < n <= 2 ^ 53 -> round_val B (n * 2 ^ (- B)) = n * 2 ^ (- B).
Proof.
  intros HB [Hn0 Hn]. unfold round_val.
  set (V := n * 2 ^ (- B)). set (k := ulp_exp B V).
  assert (Hlog : Z.log2 V = - B + Z.log2 n) by (apply Z.log2_mul_pow2; lia).
  assert (Hk0 : 0 <= k) by (unfold k, ulp_exp; lia).
  assert (Hu : 0 < 2 ^ k) by (apply Z.pow_pos_nonneg; lia).
  assert (Hq : exists q, V = q * 2 ^ k).
  { destruct (Z.eq_dec n (2 ^ 53)) as [->|Hne].
    - assert (Hl : Z.log2 (2 ^ 53) = 53) by (apply Z.log2_pow2; lia).
      assert (Hk : k = 1 - B) by (unfold k, ulp_exp; lia).
      exists (2 ^ 52). unfold V. rewrite Hk, <- !Z.pow_add_r by lia. f_equal. lia.
    - assert (Hl : Z.log2 n < 53) by (apply Z.log2_lt_pow2; lia).
      pose proof (Z.log2_nonneg n) as Hl0.
      assert (Hk : k <= - B) by (unfold k, ulp_exp; lia).
      exists (n * 2 ^ (- B - k)). unfold V.
      rewrite <- Z.mul_assoc, <- Z.pow_add_r by lia. do 2 f_equal. lia. }
  destruct Hq as [q Hq]. rewrite Hq, rnq_exact by assumption. reflexivity.
Qed.

(** The product of a canonical positive number by 1000 whose exact
    value is below [2 ^ 53]: its integer part is that of the exact
    product, or one more when the product rounds up to a whole number;
    it is the exact product when that is whole. *)
Lemma trunc_mul_1000_near m1 e1 :
  Float64.valid (S754_finite false m1 e1) = true ->
  let V := Zpos m1 * 8796093022208000 * 2 ^ (e1 + 1074) in
  V < 2 ^ 53 * 2 ^ 1117 ->
  exists z,
    Float64.trunc (Float64.mul (S754_finite false m1 e1) (Float64.of_Z 1000)) = Some z
    /\ 0 <= z <= 2 ^ 53
    /\ (z = V / 2 ^ 1117 \/ z = V / 2 ^ 1117 + 1)
    /\ (V mod 2 ^ 1117 = 0 -> z = V / 2 ^ 1117).
Proof.
  intros Vs V Hb.
  pose proof (valid_finite_bounds _ _ _ Vs) as (Hr & _).
  assert (Hp : 0 < 2 ^ 1117) by (apply Z.pow_pos_nonneg; lia).
  assert (HV : 0 < V).
  { unfold V. assert (0 < 2 ^ (e1 + 1074)) by (apply Z.pow_pos_nonneg; lia). nia. }
  set (n := V / 2 ^ 1117).
  assert (Hn0 : 0 <= n) by (apply Z.div_pos; lia).
  assert (Hn1 : n < 2 ^ 53) by (apply Z.div_lt_upper_bound; lia).
  assert (Hlow : n * 2 ^ 1117 <= V) by (rewrite Z.mul_comm; apply Z.mul_div_le; lia).
  assert (Hup : V < (n + 1) * 2 ^ 1117).
  { pose proof (Z.mod_pos_bound V (2 ^ 1117) Hp) as Hm.
    pose proof (Z.div_mod V (2 ^ 1117) ltac:(lia)) as Hd. fold n in Hd. lia. }
  set (R := round_val (-1117) V).
  assert (HRlow : n * 2 ^ 1117 <= R).
  { destruct (Z.eq_dec n 0) as [->|Hne].
    - rewrite Z.mul_0_l. apply round_val_nonneg; lia.
    - pose proof (round_val_integer (-1117) n ltac:(lia) ltac:(lia)) as Hfix.
      change (- -1117) with 1117 in Hfix. rewrite <- Hfix.
      apply round_val_mono; lia. }
  assert (HRup : R <= (n + 1) * 2 ^ 1117).
  { pose proof (round_val_integer (-1117) (n + 1) ltac:(lia) ltac:(lia)) as Hfix.
    change (- -1117) with 1117 in Hfix. rewrite <- Hfix.
    apply round_val_mono; lia. }
  destruct (mul_1000_value m1 e1 ltac:(lia)) as (m & e' & Hm & He' & Hval & Hres).
  fold V in Hval. fold R in Hval.
  assert (Hz1 : n <= R / 2 ^ 1117) by (apply Z.div_le_lower_bound; lia).
  assert (Hz2 : R / 2 ^ 1117 <= n + 1) by (apply Z.div_le_upper_bound; lia).
  destruct (trunc_round_result (-1117) m e' ltac:(lia) He' Hm) as [Hfinite Hinf].
  change (- -1117) with 1117 in Hfinite, Hinf. rewrite Hval in Hfinite, Hinf.
  assert (Ht : Float64.trunc (round_result m e') = Some (R / 2 ^ 1117)).
  { destruct (Z_le_gt_dec e' 971) as [Hs|Hs]; [apply Hfinite; left; assumption|].
    destruct (Z.eq_dec m 0) as [->|Hne]; [apply Hfinite; right; reflexivity|].
    destruct Hinf as [_ Hbig]; [lia..|].
    assert (2 ^ 53 < 2 ^ 972) by (apply Z.pow_lt_mono_r; lia). lia. }
  exists (R / 2 ^ 1117). rewrite Hres. split; [exact Ht|]. split; [lia|]. split; [lia|].
  intros Hmod.
  assert (HVn : V = n * 2 ^ 1117).
  { pose proof (Z.div_mod V (2 ^ 1117) ltac:(lia)) as Hd. fold n in Hd. lia. }
  assert (HR : R = n * 2 ^ 1117).
  { unfold R. rewrite HVn. apply (round_val_integer (-1117) n); nia. }
  rewrite HR. apply Z.div_mul. lia.
Qed.

(** The exact product, as the fraction of the number says it. *)
Lemma scaled_fraction m1 e1 :
  -1074 <= e1 ->
  let s := S754_finite false m1 e1 in
  (Zpos m1 * 8796093022208000 * 2 ^ (e1 + 1074)) * Float64.denominator s
  = Float64.numerator s * 1000 * 2 ^ 1117.
Proof.
  intros He s. unfold s, Float64.numerator, Float64.denominator. cbn [cond_Zopp].
  change 8796093022208000 with (1000 * 2 ^ 43).
  destruct (Z_le_gt_dec 0 e1) as [H0|H0].
  - rewrite (Z.max_l e1 0), (Z.max_r (- e1) 0) by lia. rewrite Z.pow_0_r, Z.mul_1_r.
    replace (2 ^ 1117) with (2 ^ 43 * 2 ^ 1074) by (rewrite <- Z.pow_add_r by lia; reflexivity).
    rewrite (Z.pow_add_r 2 e1 1074) by lia. ring.
  - rewrite (Z.max_r e1 0), (Z.max_l (- e1) 0) by lia. rewrite Z.pow_0_r, Z.mul_1_r.
    replace (2 ^ 1117) with (2 ^ 43 * (2 ^ (e1 + 1074) * 2 ^ (- e1))).
    + ring.
    + rewrite <- !Z.pow_add_r by lia. f_equal. lia.
Qed.

(** Milliseconds from seconds, for a start or an end below [2 ^ 53]
    milliseconds in magnitude.  [q] is the exact product, its fraction
    dropped. *)
Lemma to_int64_scaled_near s :
  Float64.valid s = true ->
  Float64.is_finite s = true ->
  Z.abs (Float64.numerator s) * 1000 < 2 ^ 53 * Float64.denominator s ->
  let q := Z.quot (Float64.numerator s * 1000) (Float64.denominator s) in
  let r := Float64.to_int64 (Float64.mul s (Float64.of_Z 1000)) in
  (r = q \/ r = q + Z.sgn (Float64.numerator s))
  /\ (Z.rem (Float64.numerator s * 1000) (Float64.denominator s) = 0 -> r = q).
Proof.
  intros Vs Hfin Hb q r.
  destruct s as [b|b| |b m1 e1]; try discriminate.
  { subst q r. rewrite of_Z_1000. destruct b; vm_compute; auto. }
  assert (Vp : Float64.valid (S754_finite false m1 e1) = true) by exact Vs.
  pose proof (valid_finite_bounds _ _ _ Vp) as (Hr & _).
  pose proof (scaled_fraction m1 e1 ltac:(lia)) as HK. cbv zeta in HK.
  set (V := Zpos m1 * 8796093022208000 * 2 ^ (e1 + 1074)) in *.
  set (num := Float64.numerator (S754_finite false m1 e1)) in *.
  set (den := Float64.denominator (S754_finite false m1 e1)) in *.
  assert (Hden : 0 < den) by (unfold den, Float64.denominator; apply Z.pow_pos_nonneg; lia).
  assert (Hnum : 0 < num).
  { unfold num, Float64.numerator. cbn [cond_Zopp].
    assert (0 < 2 ^ Z.max e1 0) by (apply Z.pow_pos_nonneg; lia). nia. }
  assert (Hp : 0 < 2 ^ 1117) by (apply Z.pow_pos_nonneg; lia).
  assert (Hnumb : Float64.numerator (S754_finite b m1 e1) = if b then - num else num).
  { unfold num, Float64.numerator. destruct b; cbn [cond_Zopp]; lia. }
  assert (Hdenb : Float64.denominator (S754_finite b m1 e1) = den) by reflexivity.
  rewrite Hnumb, Hdenb in Hb.
  assert (Hb' : num * 1000 < 2 ^ 53 * den) by (destruct b; lia).
  assert (HVb : V < 2 ^ 53 * 2 ^ 1117) by nia.
  assert (Hquot : Z.quot (num * 1000) den = V / 2 ^ 1117).
  { rewrite Z.quot_div_nonneg by lia.
    rewrite <- (Z.div_mul_cancel_r (num * 1000) den (2 ^ 1117)) by lia.
    rewrite <- HK, (Z.mul_comm den), Z.div_mul_cancel_r by lia. reflexivity. }
  assert (Hrem : Z.rem (num * 1000) den = 0 -> V mod 2 ^ 1117 = 0).
  { intros H0. rewrite Z.rem_mod_nonneg in H0 by lia.
    apply Z.mod_divide in H0; [|lia]. destruct H0 as [c Hc].
    assert (HV : V = c * 2 ^ 1117) by nia.
    rewrite HV. apply Z.mod_mul. lia. }
  destruct (trunc_mul_1000_near m1 e1 Vp HVb) as (z & Ht & Hz & Hnear & Hexact).
  fold V in Hnear, Hexact. rewrite <- Hquot in Hnear, Hexact.
  assert (H53 : 2 ^ 53 < 2 ^ 63) by (apply Z.pow_lt_mono_r; lia).
  destruct b.
  - assert (Hr' : r = - z).
    { unfold r. change (S754_finite true m1 e1) with (SFopp (S754_finite false m1 e1)).
      rewrite mul_1000_opp. apply to_int64_of_trunc.
      - rewrite trunc_opp, Ht. reflexivity.
      - unfold Float64.fits_int64, Float64.min_int64, Float64.max_int64.
        apply andb_true_iff. split; apply Z.leb_le; lia. }
    assert (Hq : q = - Z.quot (num * 1000) den).
    { unfold q. rewrite Hnumb, Hdenb, Z.mul_opp_l, Z.quot_opp_l by lia. reflexivity. }
    rewrite Hnumb, Hdenb. rewrite Z.sgn_neg by lia. split.
    + destruct Hnear; [left | right]; lia.
    + intros H0. rewrite Z.mul_opp_l, Z.rem_opp_l in H0 by lia.
      assert (Z.rem (num * 1000) den = 0) by lia. specialize (Hexact (Hrem H)). lia.
  - assert (Hr' : r = z).
    { unfold r. apply to_int64_of_trunc; [exact Ht|].
      unfold Float64.fits_int64, Float64.min_int64, Float64.max_int64.
      apply andb_true_iff. split; apply Z.leb_le; lia. }
    assert (Hq : q = Z.quot (num * 1000) den) by reflexivity.
    rewrite Hnumb, Hdenb. rewrite Z.sgn_pos by lia. split.
    + destruct Hnear; [left | right]; lia.
    + intros H0. specialize (Hexact (Hrem H0)). lia.
Qed.

(** ** Seconds to milliseconds *)

(** C2, as stated, fails: the product is taken in float64 and rounded
    to nearest before its fraction is dropped.  The float64 that the
    input 0.29 decodes to lies below 0.29, so 289 is its product with
    1000 with the fraction dropped, yet the Word starts at 290; and the
    input 1.001 gives a Word that ends at 1000, not at 1001.  For a
    start of [10 ^ 16] seconds the product, [10 ^ 19], is no int64 at
    all. *)
Lemma C2_counterexample :
  let s := Float64.of_ratio 29 100 in
  let e := Float64.of_ratio 1001 1000 in
  let far := Float64.of_Z (10 ^ 16) in
  ElevenLabs.Parse
    (JObj {[ "text" := JStr "hi";
             "words" := JArr [ JObj {[ "text" := JStr "hi";
                                       "start" := JNum s;
                                       "end" := JNum e ]} ] ]})
  = Ok {| StandardResult.Text := "hi";
          StandardResult.Words :=
            [ {| Word.Text := "hi"; Word.Start := 290; Word.End := 1000;
                 Word.SpeakerID := "" |} ];
          StandardResult.Sentences := [];
          StandardResult.Language := "" |}
  /\ Z.quot (Float64.numerator s * 1000) (Float64.denominator s) = 289
  /\ Z.quot (1001 * 1000) 1000 = 1001
  /\ Float64.trunc (Float64.mul far (Float64.of_Z 1000)) = Some (10 ^ 19)
  /\ Float64.fits_int64 (10 ^ 19) = false.
Proof. vm_compute. auto 6. Qed.

(** C2, amended. The ElevenLabs normalizer converts each start and end
    as [int64(x * 1000)], the product being the float64 product.  For a
    decoded time below [2 ^ 53] milliseconds in magnitude the result is
    the exact product with its fraction dropped, or the next whole
    number away from zero; it is the exact product whenever that is a
    whole number of milliseconds.  1.5 seconds give exactly 1500 ms, and the
    example response of the specification normalizes to the stated
    result. *)
Theorem C2_seconds_to_milliseconds :
  (forall word,
      Word.Start (ElevenLabs.word_of word)
      = Float64.to_int64
          (Float64.mul (float64_or_zero (word !! "start")) (Float64.of_Z 1000))
      /\ Word.End (ElevenLabs.word_of word)
         = Float64.to_int64
             (Float64.mul (float64_or_zero (word !! "end")) (Float64.of_Z 1000)))
  /\ (forall word s,
      as_float64 (word !! "start") = Some s ->
      Float64.valid s = true ->
      Float64.is_finite s = true ->
      Z.abs (Float64.numerator s) * 1000 < 2 ^ 53 * Float64.denominator s ->
      let q := Z.quot (Float64.numerator s * 1000) (Float64.denominator s) in
      let start := Word.Start (ElevenLabs.word_of word) in
      (start = q \/ start = q + Z.sgn (Float64.numerator s))
      /\ (Z.rem (Float64.numerator s * 1000) (Float64.denominator s) = 0 -> start = q))
  /\ (forall word e,
      as_float64 (word !! "end") = Some e ->
      Float64.valid e = true ->
      Float64.is_finite e = true ->
      Z.abs (Float64.numerator e) * 1000 < 2 ^ 53 * Float64.denominator e ->
      let q := Z.quot (Float64.numerator e * 1000) (Float64.denominator e) in
      let end_ := Word.End (ElevenLabs.word_of word) in
      (end_ = q \/ end_ = q + Z.sgn (Float64.numerator e))
      /\ (Z.rem (Float64.numerator e * 1000) (Float64.denominator e) = 0 -> end_ = q))
  /\ Float64.mul (Float64.of_ratio 15 10) (Float64.of_Z 1000) = Float64.of_Z 1500
  /\ (forall word,
      as_float64 (word !! "start") = Some (Float64.of_ratio 15 10) ->
      Word.Start (ElevenLabs.word_of word) = 1500)
  /\ (forall word,
      as_float64 (word !! "end") = Some (Float64.of_ratio 15 10) ->
      Word.End (ElevenLabs.word_of word) = 1500)
  /\ ElevenLabs.Parse (JObj Examples.spec_response) = Ok Examples.spec_result.
Proof.
  split; [|split; [|split; [|split; [|split; [|split]]]]].
  - intros word. split;
      [apply elevenlabs_word_of_Start | apply elevenlabs_word_of_End].
  - intros word s Hs Vs Hfin Hb q start. subst q start.
    rewrite elevenlabs_word_of_Start. unfold float64_or_zero. rewrite Hs.
    apply to_int64_scaled_near; assumption.
  - intros word e He Ve Hfin Hb q end_. subst q end_.
    rewrite elevenlabs_word_of_End. unfold float64_or_zero. rewrite He.
    apply to_int64_scaled_near; assumption.
  - vm_compute. reflexivity.
  - intros word Hs. rewrite elevenlabs_word_of_Start. unfold float64_or_zero.
    rewrite Hs. vm_compute. reflexivity.
  - intros word He. rewrite elevenlabs_word_of_End. unfold float64_or_zero.
    rewrite He. vm_compute. reflexivity.
  - vm_compute. reflexivity.
Qed.

Lemma C2_seconds_to_milliseconds_witness :
  let word : gmap string JSON :=
    {[ "text" := JStr "there"; "start" := JNum (Float64.of_ratio 15 10) ]} in
  Word.Start (ElevenLabs.word_of word)
  = Z.quot (Float64.numerator (Float64.of_ratio 15 10) * 1000)
           (Float64.denominator (Float64.of_ratio 15 10)).
Proof.
  intros word.
  apply (proj1 (proj2 C2_seconds_to_milliseconds) word (Float64.of_ratio 15 10));
    vm_compute; reflexivity.
Defined.

(** ** Start and end of the words *)





(** ** What the parsers keep *)

Section CollectObjectsShape.
Context {A : Type} (build : gmap string JSON -> A).

(** The word loop appends one word per object entry, in order. *)
Lemma collect_objects_objects wordsRaw : forall acc,
  collect_objects build wordsRaw acc = acc ++ map build (objects wordsRaw).
Proof.
  induction wordsRaw as [|wordRaw wordsRaw IH]; intros acc.
  - cbn. rewrite app_nil_r. reflexivity.
  - rewrite collect_objects_cons, IH. unfold objects.
    destruct wordRaw as [| | | | |word]; cbn; try reflexivity.
    rewrite <- app_assoc. reflexivity.
Qed.

End CollectObjectsShape.

(** X1. ElevenLabs [parse] succeeds exactly when [text] is a string and
    [words] an array with an object among its entries; the result then
    holds one Word per object entry, in the order of the array, no
    Sentence, and the text and the language code as they came. *)
Theorem elevenlabs_parse_shape response res :
  ElevenLabs.parse response = Ok res <->
  exists text wordsRaw,
    as_string (response !! "text") = Some text
    /\ as_array (response !! "words") = Some wordsRaw
    /\ objects wordsRaw <> []
    /\ res = {| StandardResult.Text := text;
                StandardResult.Words := map ElevenLabs.word_of (objects wordsRaw);
                StandardResult.Sentences := [];
                StandardResult.Language :=
                  string_or_zero (response !! "language_code") |}.
Proof.
  unfold ElevenLabs.parse, ElevenLabs.collect_words. split.
  - intros H.
    destruct (as_string (response !! "text")) as [text|]; [|discriminate].
    destruct (as_array (response !! "words")) as [wordsRaw|]; [|discriminate].
    rewrite collect_objects_objects in H. cbn [app] in H.
    case_bool_decide as Hlen; [discriminate|]. injection H as <-.
    exists text, wordsRaw. split; [reflexivity|]. split; [reflexivity|].
    split; [|reflexivity].
    intros E. rewrite E in Hlen. apply Hlen. reflexivity.
  - intros (text & wordsRaw & -> & -> & Hne & ->).
    rewrite collect_objects_objects. cbn [app].
    rewrite bool_decide_eq_false_2; [reflexivity|].
    rewrite length_map. intros E. apply Hne. apply length_zero_iff_nil. exact E.
Qed.

(** The loop over utterances of the JianYing parser, as a whole: texts
    and sentences of the spoken utterances, words of all of them. *)
Lemma jianying_fold_shape utterancesRaw : forall a,
  fold_left JianYing.utterance_step utterancesRaw a
  = {| JianYing.textParts :=
         JianYing.textParts a
         ++ map (fun utt => string_or_zero (utt !! "text"))
                (spoken "text" (objects utterancesRaw));
       JianYing.sentences :=
         JianYing.sentences a
         ++ map (fun utt => JianYing.sentence_of utt (string_or_zero (utt !! "text")))
                (spoken "text" (objects utterancesRaw));
       JianYing.words :=
         JianYing.words a
         ++ words_of_utterances JianYing.word_of (objects utterancesRaw) |}.
Proof.
  induction utterancesRaw as [|uttRaw rest IH]; intros a.
  - cbn. rewrite !app_nil_r. destruct a; reflexivity.
  - cbn [fold_left]. rewrite IH. unfold JianYing.utterance_step.
    destruct uttRaw as [| | | | |utt]; try reflexivity.
    change (objects (JObj utt :: rest)) with (utt :: objects rest).
    unfold spoken. rewrite filter_cons.
    cbn [as_object words_of_utterances flat_map].
    fold (words_of_utterances JianYing.word_of (objects rest)).
    unfold JianYing.collect_words.
    destruct (decide (string_or_zero (utt !! "text") ≠ "")) as [Ht|Ht].
    + rewrite (bool_decide_eq_true_2 _ Ht).
      destruct (as_array (utt !! "words")) as [wordsRaw|];
        cbn [default JianYing.textParts JianYing.sentences JianYing.words map];
        [rewrite collect_objects_objects|];
        rewrite <- ?app_assoc; reflexivity.
    + rewrite (bool_decide_eq_false_2 _ Ht).
      destruct (as_array (utt !! "words")) as [wordsRaw|];
        cbn [default JianYing.textParts JianYing.sentences JianYing.words map];
        [rewrite collect_objects_objects|];
        rewrite <- ?app_assoc; reflexivity.
Qed.

Lemma bijian_fold_shape utterancesRaw : forall a,
  fold_left Bijian.utterance_step utterancesRaw a
  = {| Bijian.textParts :=
         Bijian.textParts a
         ++ map (fun utt => string_or_zero (utt !! "transcript"))
                (spoken "transcript" (objects utterancesRaw));
       Bijian.sentences :=
         Bijian.sentences a
         ++ map (fun utt => Bijian.sentence_of utt (string_or_zero (utt !! "transcript")))
                (spoken "transcript" (objects utterancesRaw));
       Bijian.words :=
         Bijian.words a
         ++ words_of_utterances Bijian.word_of (objects utterancesRaw) |}.
Proof.
  induction utterancesRaw as [|uttRaw rest IH]; intros a.
  - cbn. rewrite !app_nil_r. destruct a; reflexivity.
  - cbn [fold_left]. rewrite IH. unfold Bijian.utterance_step.
    destruct uttRaw as [| | | | |utt]; try reflexivity.
    change (objects (JObj utt :: rest)) with (utt :: objects rest).
    unfold spoken. rewrite filter_cons.
    cbn [as_object words_of_utterances flat_map].
    fold (words_of_utterances Bijian.word_of (objects rest)).
    unfold Bijian.collect_words.
    destruct (decide (string_or_zero (utt !! "transcript") ≠ "")) as [Ht|Ht].
    + rewrite (bool_decide_eq_true_2 _ Ht).
      destruct (as_array (utt !! "words")) as [wordsRaw|];
        cbn [default Bijian.textParts Bijian.sentences Bijian.words map];
        [rewrite collect_objects_objects|];
        rewrite <- ?app_assoc; reflexivity.
    + rewrite (bool_decide_eq_false_2 _ Ht).
      destruct (as_array (utt !! "words")) as [wordsRaw|];
        cbn [default Bijian.textParts Bijian.sentences Bijian.words map];
        [rewrite collect_objects_objects|];
        rewrite <- ?app_assoc; reflexivity.
Qed.

(** The text of a list of sentences, joined. *)
Lemma join_sentence_texts {A : Type} (text : A -> string) (sentence : A -> Sentence.t)
    (l : list A) :
  (forall x, Sentence.Text (sentence x) = text x) ->
  join_empty (map text l) = join_empty (map Sentence.Text (map sentence l)).
Proof.
  intros H. induction l as [|x l IH]; [reflexivity|].
  cbn. rewrite H. unfold join_empty in IH. cbn in IH. rewrite IH. reflexivity.
Qed.

(** X2. A successful JianYing [parse] returns the words of all object
    utterances, utterance after utterance and word entry after word
    entry in the order of the response; an utterance without text still
    contributes its words. *)
Theorem jianying_parse_words_in_order response res :
  JianYing.parse response = Ok res ->
  exists data utterancesRaw,
    as_object (response !! "data") = Some data
    /\ as_array (data !! "utterances") = Some utterancesRaw
    /\ StandardResult.Words res
       = flat_map
           (fun utt =>
              map JianYing.word_of (objects (default [] (as_array (utt !! "words")))))
           (objects utterancesRaw)
    /\ StandardResult.Language res = JianYing.language_of data.
Proof.
  unfold JianYing.parse. intros H.
  destruct (as_object (response !! "data")) as [data|]; [|discriminate].
  destruct (as_array (data !! "utterances")) as [utterancesRaw|] eqn:Hraw; [|discriminate].
  case_bool_decide; [discriminate|]. injection H as <-.
  exists data, utterancesRaw. rewrite jianying_fold_shape.
  split; [reflexivity|]. split; [exact Hraw|]. split; reflexivity.
Qed.

Lemma jianying_parse_words_in_order_witness :
  exists data utterancesRaw,
    as_object (Scenarios.jianying_response !! "data") = Some data
    /\ as_array (data !! "utterances") = Some utterancesRaw
    /\ StandardResult.Words Scenarios.jianying_result
       = flat_map
           (fun utt =>
              map JianYing.word_of (objects (default [] (as_array (utt !! "words")))))
           (objects utterancesRaw)
    /\ StandardResult.Language Scenarios.jianying_result = JianYing.language_of data.
Proof.
  apply (jianying_parse_words_in_order Scenarios.jianying_response).
  vm_compute. reflexivity.
Defined.

(** X3. In the result of a successful JianYing [parse], the sentences
    are those of the object utterances whose text is a non-empty
    string, in order; no Sentence has an empty text, and the Text of
    the result is the concatenation of the texts of its Sentences. *)
Theorem jianying_parse_text_of_sentences response res :
  JianYing.parse response = Ok res ->
  StandardResult.Text res
  = join_empty (map Sentence.Text (StandardResult.Sentences res))
  /\ Forall (fun s => Sentence.Text s <> "") (StandardResult.Sentences res)
  /\ exists data utterancesRaw,
       as_object (response !! "data") = Some data
       /\ as_array (data !! "utterances") = Some utterancesRaw
       /\ StandardResult.Sentences res
          = map (fun utt => JianYing.sentence_of utt (string_or_zero (utt !! "text")))
                (spoken "text" (objects utterancesRaw)).
Proof.
  unfold JianYing.parse. intros H.
  destruct (as_object (response !! "data")) as [data|]; [|discriminate].
  destruct (as_array (data !! "utterances")) as [utterancesRaw|] eqn:Hraw; [|discriminate].
  case_bool_decide; [discriminate|]. injection H as <-.
  rewrite jianying_fold_shape.
  cbn [StandardResult.Text StandardResult.Sentences JianYing.textParts
       JianYing.sentences app].
  split; [|split].
  - apply join_sentence_texts. reflexivity.
  - apply Forall_map. apply Forall_forall. intros utt Hin.
    apply list_elem_of_filter in Hin as [Ht _]. exact Ht.
  - exists data, utterancesRaw. split; [reflexivity|]. split; [exact Hraw | reflexivity].
Qed.

Lemma jianying_parse_text_of_sentences_witness :
  StandardResult.Text Scenarios.jianying_result
  = join_empty (map Sentence.Text (StandardResult.Sentences Scenarios.jianying_result)).
Proof.
  apply (jianying_parse_text_of_sentences Scenarios.jianying_response).
  vm_compute. reflexivity.
Defined.

(** X4. A successful Bijian [parse] returns the words of all object
    utterances in the order of the response; no Word carries a speaker
    and the language is left empty. *)
Theorem bijian_parse_words_in_order response res :
  Bijian.parse response = Ok res ->
  (exists utterancesRaw,
     as_array (response !! "utterances") = Some utterancesRaw
     /\ StandardResult.Words res
        = flat_map
            (fun utt =>
               map Bijian.word_of (objects (default [] (as_array (utt !! "words")))))
            (objects utterancesRaw))
  /\ Forall (fun w => Word.SpeakerID w = "") (StandardResult.Words res)
  /\ StandardResult.Language res = "".
Proof.
  unfold Bijian.parse. intros H.
  destruct (as_array (response !! "utterances")) as [utterancesRaw|]; [|discriminate].
  case_bool_decide; [discriminate|]. injection H as <-.
  rewrite bijian_fold_shape.
  cbn [StandardResult.Words StandardResult.Language Bijian.words app].
  split; [|split; [|reflexivity]].
  - exists utterancesRaw. split; reflexivity.
  - unfold words_of_utterances. apply Forall_flat_map.
    apply Forall_forall. intros utt _. apply Forall_map.
    apply Forall_forall. intros word _. reflexivity.
Qed.

Lemma bijian_parse_words_in_order_witness :
  Forall (fun w => Word.SpeakerID w = "") (StandardResult.Words Scenarios.bijian_result).
Proof.
  apply (bijian_parse_words_in_order Scenarios.bijian_response).
  vm_compute. reflexivity.
Defined.

(** X5. In the result of a successful Bijian [parse], the sentences are
    those of the object utterances whose transcript is a non-empty
    string, in order; no Sentence has an empty text, and the Text of
    the result is the concatenation of the texts of its Sentences. *)
Theorem bijian_parse_text_of_sentences response res :
  Bijian.parse response = Ok res ->
  StandardResult.Text res
  = join_empty (map Sentence.Text (StandardResult.Sentences res))
  /\ Forall (fun s => Sentence.Text s <> "") (StandardResult.Sentences res)
  /\ exists utterancesRaw,
       as_array (response !! "utterances") = Some utterancesRaw
       /\ StandardResult.Sentences res
          = map (fun utt => Bijian.sentence_of utt (string_or_zero (utt !! "transcript")))
                (spoken "transcript" (objects utterancesRaw)).
Proof.
  unfold Bijian.parse. intros H.
  destruct (as_array (response !! "utterances")) as [utterancesRaw|]; [|discriminate].
  case_bool_decide; [discriminate|]. injection H as <-.
  rewrite bijian_fold_shape.
  cbn [StandardResult.Text StandardResult.Sentences Bijian.textParts
       Bijian.sentences app].
  split; [|split].
  - apply join_sentence_texts. reflexivity.
  - apply Forall_map. apply Forall_forall. intros utt Hin.
    apply list_elem_of_filter in Hin as [Ht _]. exact Ht.
  - exists utterancesRaw. split; reflexivity.
Qed.

Lemma bijian_parse_text_of_sentences_witness :
  StandardResult.Text Scenarios.bijian_result
  = join_empty (map Sentence.Text (StandardResult.Sentences Scenarios.bijian_result)).
Proof.
  apply (bijian_parse_text_of_sentences Scenarios.bijian_response).
  vm_compute. reflexivity.
Defined.

(** ** Options that pass validation *)

Lemma SFcompare_none x y : SFcompare x y = None -> x = S754_nan \/ y = S754_nan.
Proof.
  destruct x as [bx|bx| |bx mx ex], y as [by_|by_| |by_ my ey];
    cbn; try discriminate; auto.
Qed.

(** X6. Options that JianYing's [Validate] accepts keep their
    StartTime, have an EndTime other than zero, and are accepted again
    unchanged; when both times are numbers, [0 <= StartTime < EndTime]
    in the order of float64. *)
Theorem jianying_validate_accepted o o' :
  JianYing.Validate o = (o', None) ->
  JianYing.StartTime o' = JianYing.StartTime o
  /\ Float64.eqb (JianYing.EndTime o') (Float64.of_Z 0) = false
  /\ JianYing.Validate o' = (o', None)
  /\ (JianYing.StartTime o' <> S754_nan ->
      JianYing.EndTime o' <> S754_nan ->
      SFleb (S754_zero false) (JianYing.StartTime o') = true
      /\ SFltb (JianYing.StartTime o') (JianYing.EndTime o') = true).
Proof.
  intros H. unfold JianYing.Validate in H.
  set (o1 := if Float64.eqb (JianYing.EndTime o) (Float64.of_Z 0) then _ else o) in H.
  destruct (Float64.ltb (JianYing.StartTime o1) (Float64.of_Z 0)) eqn:Hs; [discriminate|].
  destruct (Float64.ltb (JianYing.EndTime o1) (Float64.of_Z 0)) eqn:He; [discriminate|].
  destruct (Float64.geb (JianYing.StartTime o1) (JianYing.EndTime o1)) eqn:Hge;
    [discriminate|].
  injection H as <-.
  assert (Hstart : JianYing.StartTime o1 = JianYing.StartTime o).
  { subst o1. destruct (Float64.eqb _ _); reflexivity. }
  assert (Hend : Float64.eqb (JianYing.EndTime o1) (Float64.of_Z 0) = false).
  { subst o1. destruct (Float64.eqb (JianYing.EndTime o) (Float64.of_Z 0)) eqn:E;
      [vm_compute; reflexivity | exact E]. }
  split; [exact Hstart|]. split; [exact Hend|]. split.
  - unfold JianYing.Validate. rewrite Hend, Hs, He, Hge. reflexivity.
  - intros Hns Hne. split.
    + unfold Float64.ltb in Hs.
      destruct (JianYing.StartTime o1) as [b|b| |b m e];
        [destruct b; reflexivity | destruct b; [discriminate | reflexivity]
        | contradiction | destruct b; [discriminate | reflexivity]].
    + unfold Float64.geb in Hge. unfold SFltb.
      destruct (SFcompare (JianYing.StartTime o1) (JianYing.EndTime o1)) as [[]|] eqn:Hc;
        try discriminate; [reflexivity|].
      apply SFcompare_none in Hc as [Hc|Hc]; contradiction.
Qed.

Lemma jianying_validate_accepted_witness :
  JianYing.Validate {| JianYing.StartTime := Float64.of_Z 0;
                       JianYing.EndTime := Float64.of_Z 6000 |}
  = ({| JianYing.StartTime := Float64.of_Z 0; JianYing.EndTime := Float64.of_Z 6000 |},
     None).
Proof.
  apply (jianying_validate_accepted Examples.all_zero_times).
  vm_compute. reflexivity.
Defined.

(** X7. Whatever options JianYing's [Fetch] is given, it either returns
    a ValidationError without any effect, or is the workflow run on
    options that [Validate] accepts as they are; ElevenLabs' [Fetch]
    always is the workflow, run on options whose language code is not
    empty. *)
Theorem fetch_runs_on_validated_options audioPath :
  (forall fetch opts env tr,
      (exists field message,
          JianYing.Fetch fetch audioPath opts env tr
          = (Err (ValidationError field message), tr))
      \/ exists o,
          JianYing.Validate o = (o, None)
          /\ JianYing.Fetch fetch audioPath opts = fetch audioPath o)
  /\ (forall fetch opts,
      exists o,
        ElevenLabs.LanguageCode o <> ""
        /\ ElevenLabs.Validate o = (o, None)
        /\ ElevenLabs.Fetch fetch audioPath opts = fetch audioPath o).
Proof.
  split.
  - intros fetch opts env tr. unfold JianYing.Fetch.
    destruct (assert_own opts) as [p ok].
    set (o0 := match p with Some o => if negb ok then _ else o | None => _ end).
    destruct (JianYing.Validate o0) as [o1 [e|]] eqn:Hv.
    + left.
      assert (He : exists field message, e = ValidationError field message).
      { unfold JianYing.Validate in Hv.
        repeat match type of Hv with
               | context [if ?b then _ else _] => destruct b
               end; inversion Hv; eauto. }
      destruct He as (field & message & ->). exists field, message. reflexivity.
    + right. exists o1. split; [|reflexivity].
      apply (jianying_validate_accepted o0 o1 Hv).
  - intros fetch opts. unfold ElevenLabs.Fetch.
    destruct (assert_own opts) as [p ok].
    set (o0 := match p with Some o => if negb ok then _ else o | None => _ end).
    unfold ElevenLabs.Validate.
    destruct (decide (ElevenLabs.LanguageCode o0 = "")) as [E|E].
    + rewrite (bool_decide_eq_true_2 _ E).
      eexists. split; [|split; [|reflexivity]]; [discriminate | reflexivity].
    + rewrite (bool_decide_eq_false_2 _ E).
      exists o0. split; [exact E|]. split; [|reflexivity].
      rewrite (bool_decide_eq_false_2 _ E). reflexivity.
Qed.

(** ** Every run of the poll loop *)

Section PollRuns.
Variables (env : Env) (taskID : string) (opts : Bijian.Options).

(** What [examine] found when it tells the loop to go on, or to return
    a result. *)
Lemma examine_continue obj :
  Bijian.examine env obj = Bijian.Continue ->
  exists data state,
    as_object (obj !! "data") = Some data
    /\ as_float64 (data !! "state") = Some state
    /\ Float64.eqb state (Float64.of_Z 4) = false.
Proof.
  unfold Bijian.examine.
  destruct (as_object (obj !! "data")) as [data|]; [|discriminate].
  destruct (as_float64 (data !! "state")) as [state|] eqn:Hs; [|discriminate].
  destruct (Float64.eqb state (Float64.of_Z 4)) eqn:H4.
  - destruct (as_string (data !! "result")) as [resultStr|]; [|discriminate].
    destruct (json_unmarshal env resultStr); discriminate.
  - intros _. exists data, state. auto.
Qed.

Lemma examine_ok obj result :
  Bijian.examine env obj = Bijian.Return (Ok result) ->
  exists data state resultStr,
    as_object (obj !! "data") = Some data
    /\ as_float64 (data !! "state") = Some state
    /\ Float64.eqb state (Float64.of_Z 4) = true
    /\ as_string (data !! "result") = Some resultStr
    /\ json_unmarshal env resultStr = Ok result.
Proof.
  unfold Bijian.examine.
  destruct (as_object (obj !! "data")) as [data|]; [|discriminate].
  destruct (as_float64 (data !! "state")) as [state|] eqn:Hs; [|discriminate].
  destruct (Float64.eqb state (Float64.of_Z 4)) eqn:H4; [|discriminate].
  destruct (as_string (data !! "result")) as [resultStr|] eqn:Hr; [|discriminate].
  destruct (json_unmarshal env resultStr) as [r|e] eqn:Hu; [|discriminate].
  intros [= <-]. exists data, state, resultStr. auto 6.
Qed.

(** A run of [n] iterations: some [k] attempts that found the task in
    progress, then nothing more or one last request; a result comes
    from a last request that found the task finished. *)
Lemma poll_loop_runs n : forall tr,
  let req := Bijian.queryRequest taskID opts in
  let run := Bijian.poll_loop n taskID opts env tr in
  exists k,
    (k <= n)%nat
    /\ pending_attempts env taskID opts tr k
    /\ (snd run = tr ++ attempts req k
        \/ (k < n)%nat /\ snd run = tr ++ attempts req k ++ [EvRequest req])
    /\ (forall result,
          fst run = Ok result ->
          (k < n)%nat
          /\ snd run = tr ++ attempts req k ++ [EvRequest req]
          /\ terminal_reply env (round_trip env (length tr + 2 * k) req) result).
Proof.
  induction n as [|n IH]; intros tr req run; subst run.
  { exists 0%nat. split; [lia|]. split; [intros j Hj; lia|].
    split; [left; cbn; rewrite app_nil_r; reflexivity | discriminate]. }
  assert (Hstop : forall out : result (gmap string JSON),
    (forall r, out <> Ok r) ->
    exists k,
      (k <= S n)%nat
      /\ pending_attempts env taskID opts tr k
      /\ (snd (out, tr) = tr ++ attempts req k
          \/ (k < S n)%nat /\ snd (out, tr) = tr ++ attempts req k ++ [EvRequest req])
      /\ (forall result,
            fst (out, tr) = Ok result ->
            (k < S n)%nat
            /\ snd (out, tr) = tr ++ attempts req k ++ [EvRequest req]
            /\ terminal_reply env (round_trip env (length tr + 2 * k) req) result)).
  { intros out Hout. exists 0%nat. split; [lia|]. split; [intros j Hj; lia|].
    split; [left; cbn; rewrite app_nil_r; reflexivity|].
    intros r Hr. cbn in Hr. destruct (Hout r Hr). }
  assert (Hlast : forall out : result (gmap string JSON),
    (forall r, out = Ok r -> terminal_reply env (round_trip env (length tr) req) r) ->
    exists k,
      (k <= S n)%nat
      /\ pending_attempts env taskID opts tr k
      /\ (snd (out, tr ++ [EvRequest req]) = tr ++ attempts req k
          \/ (k < S n)%nat
             /\ snd (out, tr ++ [EvRequest req]) = tr ++ attempts req k ++ [EvRequest req])
      /\ (forall result,
            fst (out, tr ++ [EvRequest req]) = Ok result ->
            (k < S n)%nat
            /\ snd (out, tr ++ [EvRequest req]) = tr ++ attempts req k ++ [EvRequest req]
            /\ terminal_reply env (round_trip env (length tr + 2 * k) req) result)).
  { intros out Hout. exists 0%nat. split; [lia|]. split; [intros j Hj; lia|].
    split; [right; split; [lia | reflexivity]|].
    intros r Hr. cbn in Hr. split; [lia|]. split; [reflexivity|].
    rewrite Nat.mul_0_r, Nat.add_0_r. apply Hout. exact Hr. }
  rewrite poll_loop_S. fold req.
  destruct (ctx_err env (length tr)) as [c|] eqn:Hctx; [apply Hstop; discriminate|].
  destruct (request_error env (Bijian.queryURL taskID)) as [e|] eqn:Hurl;
    [apply Hstop; discriminate|].
  cbn zeta.
  destruct (round_trip env (length tr) req) as [resp|e] eqn:Hrt;
    [|apply Hlast; discriminate].
  case_bool_decide as Hst; [apply Hlast; discriminate|].
  assert (Hst' : StatusCode resp = 200) by (destruct (decide (StatusCode resp = 200)); tauto).
  destruct (json_decode env (ResponseBody resp)) as [obj|e] eqn:Hdec;
    [|apply Hlast; discriminate].
  destruct (Bijian.examine env obj) as [out|] eqn:Hex.
  - apply Hlast. intros r ->.
    destruct (examine_ok obj r Hex) as (data & state & resultStr & H1 & H2 & H3 & H4 & H5).
    exists resp, obj, data, state, resultStr. auto 10.
  - destruct (examine_continue obj Hex) as (data & state & H1 & H2 & H3).
    destruct (IH ((tr ++ [EvRequest req]) ++ [EvSleep 1000]))
      as (k & Hk & Hp & Hshape & Hok).
    assert (Hlen : forall j,
      (length ((tr ++ [EvRequest req]) ++ [EvSleep 1000]) + 2 * j
       = length tr + 2 * S j)%nat).
    { intros j. rewrite !length_app. cbn [length]. lia. }
    assert (Happ : forall rest,
      ((tr ++ [EvRequest req]) ++ [EvSleep 1000]) ++ attempts req k ++ rest
      = tr ++ attempts req (S k) ++ rest).
    { intros rest. cbn [attempts]. rewrite <- !app_assoc. reflexivity. }
    exists (S k). split; [lia|]. split; [|split].
    + intros j Hj. destruct j as [|j].
      * rewrite Nat.mul_0_r, Nat.add_0_r. split; [exact Hctx|].
        exists resp, obj, data, state. auto 10.
      * destruct (Hp j ltac:(lia)) as [Hc Hr]. rewrite Hlen in Hc, Hr.
        split; assumption.
    + destruct Hshape as [Hs | [Hlt Hs]].
      * left. rewrite Hs. specialize (Happ []). rewrite !app_nil_r in Happ. exact Happ.
      * right. split; [lia|]. rewrite Hs. apply Happ.
    + intros r Hr. destruct (Hok r Hr) as (Hlt & Hs & Ht).
      split; [lia|]. split; [rewrite Hs; apply Happ|].
      rewrite Hlen in Ht. exact Ht.
Qed.

End PollRuns.


(** X9. [pollResult] returns a result only from a status response that
    reports state 4: the response to its last request, which follows
    [k < 500] rounds that found the task in progress; the result is
    what the [data.result] string of that response decodes to. *)
Theorem bijian_poll_result_is_terminal env taskID opts tr result :
  let req := Bijian.queryRequest taskID opts in
  let run := Bijian.pollResult taskID opts env tr in
  fst run = Ok result ->
  exists k,
    (k < 500)%nat
    /\ pending_attempts env taskID opts tr k
    /\ snd run = tr ++ attempts req k ++ [EvRequest req]
    /\ terminal_reply env (round_trip env (length tr + 2 * k) req) result.
Proof.
  intros req run Hres.
  destruct (poll_loop_runs env taskID opts 500 tr) as (k & Hk & Hp & _ & Hok).
  destruct (Hok result Hres) as (Hlt & Hs & Ht).
  exists k. auto.
Qed.

Lemma bijian_poll_result_is_terminal_witness :
  exists k,
    (k < 500)%nat
    /\ pending_attempts Examples.scenario_env "task" Examples.no_cookie [] k
    /\ snd (Bijian.pollResult "task" Examples.no_cookie Examples.scenario_env [])
       = [] ++ attempts (Bijian.queryRequest "task" Examples.no_cookie) k
            ++ [EvRequest (Bijian.queryRequest "task" Examples.no_cookie)]
    /\ terminal_reply Examples.scenario_env
         (round_trip Examples.scenario_env (length (@nil Event) + 2 * k)
            (Bijian.queryRequest "task" Examples.no_cookie))
         Examples.transcript.
Proof.
  apply (bijian_poll_result_is_terminal Examples.scenario_env "task" Examples.no_cookie
           [] Examples.transcript).
  vm_compute. reflexivity.
Defined.

(** X10. A status request that fails is not repeated: after [k < 500]
    rounds that found the task in progress, a transport error, a status
    other than 200 or a body that does not decode ends [pollResult] at
    once with that error (the APIError carrying status and body as
    received), the failed request being its last effect. *)
Theorem bijian_poll_failure_is_final env taskID opts tr k :
  (k < 500)%nat ->
  request_error env (Bijian.queryURL taskID) = None ->
  pending_attempts env taskID opts tr k ->
  ctx_err env (length tr + 2 * k) = None ->
  let req := Bijian.queryRequest taskID opts in
  let run := Bijian.pollResult taskID opts env tr in
  let tr' := tr ++ attempts req k ++ [EvRequest req] in
  (forall e,
      round_trip env (length tr + 2 * k) req = Err e ->
      run = (Err e, tr'))
  /\ (forall resp,
      round_trip env (length tr + 2 * k) req = Ok resp ->
      StatusCode resp <> 200 ->
      run = (Err (APIError (StatusCode resp) (ResponseBody resp)), tr'))
  /\ (forall resp e,
      round_trip env (length tr + 2 * k) req = Ok resp ->
      StatusCode resp = 200 ->
      json_decode env (ResponseBody resp) = Err e ->
      run = (Err (ErrorfWrap "failed to parse JSON response" e), tr')).
Proof.
  intros Hk Hurl Hp Hctx req run tr'.
  assert (Hrun : run =
    match round_trip env (length tr + 2 * k) req with
    | Err e => (Err e, tr')
    | Ok resp =>
        if bool_decide (StatusCode resp ≠ 200)
        then (Err (APIError (StatusCode resp) (ResponseBody resp)), tr')
        else
          match json_decode env (ResponseBody resp) with
          | Err e => (Err (ErrorfWrap "failed to parse JSON response" e), tr')
          | Ok obj =>
              match Bijian.examine env obj with
              | Bijian.Return out => (out, tr')
              | Bijian.Continue =>
                  Bijian.poll_loop (499 - k) taskID opts env (tr' ++ [EvSleep 1000])
              end
          end
    end).
  { subst run tr'. unfold Bijian.pollResult.
    replace 500%nat with (k + S (499 - k))%nat at 1 by lia.
    rewrite poll_loop_pending_prefix by assumption.
    rewrite poll_loop_S, length_app, length_attempts.
    fold req. rewrite Hctx, Hurl. cbn zeta. rewrite <- !app_assoc. reflexivity. }
  rewrite Hrun. split; [|split].
  - intros e He. rewrite He. reflexivity.
  - intros resp Hr Hs. rewrite Hr, bool_decide_eq_true_2 by assumption. reflexivity.
  - intros resp e Hr Hs Hd. rewrite Hr, Hd.
    rewrite bool_decide_eq_false_2 by (intros H; apply H; exact Hs). reflexivity.
Qed.

Lemma bijian_poll_failure_is_final_witness :
  let req := Bijian.queryRequest "task" Examples.no_cookie in
  Bijian.pollResult "task" Examples.no_cookie Scenarios.failing_env []
  = (Err (APIError 503 "busy"), [] ++ attempts req 2 ++ [EvRequest req]).
Proof.
  intros req.
  assert (Hp : pending_attempts Scenarios.failing_env "task" Examples.no_cookie [] 2).
  { intros j Hj. split; [reflexivity|].
    exists {| StatusCode := 200; ResponseBody := "pending" |},
           {[ "data" := JObj {[ "state" := JNum (Float64.of_Z 1) ]} ]},
           {[ "state" := JNum (Float64.of_Z 1) ]},
           (Float64.of_Z 1).
    assert (Hlt : (0 + 2 * j <? 4)%nat = true) by (apply Nat.ltb_lt; lia).
    split; [|repeat (split; [vm_compute; reflexivity|]); vm_compute; reflexivity].
    unfold Scenarios.failing_env, round_trip. simpl length. rewrite Hlt. reflexivity. }
  refine (proj1 (proj2 (bijian_poll_failure_is_final Scenarios.failing_env "task"
                          Examples.no_cookie [] 2 _ eq_refl Hp eq_refl))
            {| StatusCode := 503; ResponseBody := "busy" |} eq_refl _).
  - lia.
  - cbn. lia.
Defined.

(** ** The registry and [Transcribe] *)

(** X11. The registry's contract: a registered provider is what [Get]
    returns under its name, whatever was registered under that name
    before, and the other names are left as they were; [Get] fails with
    "provider '<name>' not found" on the empty registry; [List] holds
    exactly the names [Get] finds, each once. *)
Theorem registry_contract (r : gmap string Asr.Provider) (p : Asr.Provider) :
  Asr.Get (Asr.Register r p) (Asr.Name p) = Ok p
  /\ (forall name, name <> Asr.Name p -> Asr.Get (Asr.Register r p) name = Asr.Get r name)
  /\ (forall q, Asr.Name q = Asr.Name p ->
        Asr.Register (Asr.Register r q) p = Asr.Register r p)
  /\ (forall name,
        Asr.Get ∅ name = Err (Errorf ("provider '" +:+ name +:+ "' not found")))
  /\ (forall name, (exists q, Asr.Get r name = Ok q) <-> name ∈ Asr.List r)
  /\ NoDup (Asr.List r).
Proof.
  unfold Asr.Get, Asr.Register, Asr.List.
  split; [|split; [|split; [|split; [|split]]]].
  - rewrite lookup_insert_eq. reflexivity.
  - intros name Hne. rewrite lookup_insert_ne by (intros E; apply Hne; symmetry; exact E).
    reflexivity.
  - intros q Hq. rewrite Hq. apply insert_insert_eq.
  - intros name. rewrite lookup_empty. reflexivity.
  - intros name. split.
    + intros [q Hq]. destruct (r !! name) as [q'|] eqn:Hl; [|discriminate].
      apply list_elem_of_fmap. exists (name, q'). split; [reflexivity|].
      apply elem_of_map_to_list. exact Hl.
    + intros Hin. apply list_elem_of_fmap in Hin as ([name' q] & -> & Hin).
      apply elem_of_map_to_list in Hin. cbn. rewrite Hin. eauto.
  - apply NoDup_fst_map_to_list.
Qed.

(** X12. [Transcribe] has the effects of the provider's [Fetch] and no
    other.  A name that is not registered is reported as it is, before
    any effect; an error of [Fetch] comes back wrapped as "fetch
    failed" and [Parse] is not consulted; an error of [Parse] comes
    back wrapped as "parse failed"; a result is the [Parse] of what
    [Fetch] returned. *)
Theorem transcribe_phases (r : gmap string Asr.Provider) providerName audioPath opts env tr :
  let run := Asr.Transcribe r providerName audioPath opts env tr in
  (r !! providerName = None ->
     run = (Err (Errorf ("provider '" +:+ providerName +:+ "' not found")), tr))
  /\ (forall p,
        r !! providerName = Some p ->
        let fetched := Asr.Fetch p audioPath opts env tr in
        snd run = snd fetched
        /\ (forall cause,
              fst fetched = Err cause ->
              fst run = Err (ErrorfWrap "fetch failed" cause))
        /\ (forall raw cause,
              fst fetched = Ok raw ->
              Asr.Parse p raw = Err cause ->
              fst run = Err (ErrorfWrap "parse failed" cause))
        /\ (forall raw res,
              fst fetched = Ok raw ->
              Asr.Parse p raw = Ok res ->
              fst run = Ok res)).
Proof.
  intros run. subst run. unfold Asr.Transcribe, Asr.Get. split.
  - intros Hl. rewrite Hl. reflexivity.
  - intros p Hl. rewrite Hl. unfold bind.
    destruct (Asr.Fetch p audioPath opts env tr) as [[raw|e] tr'].
    + split; [destruct (Asr.Parse p raw); reflexivity|].
      split; [discriminate|]. split.
      * intros raw' cause [= <-] ->. reflexivity.
      * intros raw' res [= <-] ->. reflexivity.
    + split; [reflexivity|]. split; [|split; discriminate].
      intros cause [= <-]. reflexivity.
Qed.

(** Looking up one of the three names, or another. *)
Lemma registered_lookup fetchE fetchJ fetchB name :
  Asr.registered fetchE fetchJ fetchB !! name
  = if bool_decide (name = "bijian") then Some (Asr.bijian fetchB)
    else if bool_decide (name = "jianying") then Some (Asr.jianying fetchJ)
    else if bool_decide (name = "elevenlabs") then Some (Asr.elevenlabs fetchE)
    else None.
Proof.
  unfold Asr.registered, Asr.Register.
  change (Asr.Name (Asr.bijian fetchB)) with "bijian".
  change (Asr.Name (Asr.jianying fetchJ)) with "jianying".
  change (Asr.Name (Asr.elevenlabs fetchE)) with "elevenlabs".
  case_bool_decide as H1; [subst; apply lookup_insert_eq|].
  rewrite lookup_insert_ne by (intros E; apply H1; symmetry; exact E).
  case_bool_decide as H2; [subst; apply lookup_insert_eq|].
  rewrite lookup_insert_ne by (intros E; apply H2; symmetry; exact E).
  case_bool_decide as H3; [subst; apply lookup_insert_eq|].
  rewrite lookup_insert_ne by (intros E; apply H3; symmetry; exact E).
  apply lookup_empty.
Qed.

(** What a provider's [Fetch] returned when [Transcribe] succeeds. *)
Lemma transcribe_ok (r : gmap string Asr.Provider) providerName audioPath opts env tr res :
  fst (Asr.Transcribe r providerName audioPath opts env tr) = Ok res ->
  exists p raw,
    r !! providerName = Some p
    /\ fst (Asr.Fetch p audioPath opts env tr) = Ok raw
    /\ Asr.Parse p raw = Ok res.
Proof.
  unfold Asr.Transcribe, Asr.Get, bind.
  destruct (r !! providerName) as [p|]; [|discriminate].
  destruct (Asr.Fetch p audioPath opts env tr) as [[raw|e] tr'] eqn:Hf; [|discriminate].
  destruct (Asr.Parse p raw) as [res'|e] eqn:Hp; [|discriminate].
  cbn. intros [= <-]. exists p, raw.
  split; [reflexivity|]. split; [rewrite Hf; reflexivity | exact Hp].
Qed.

(** X13. Through [Transcribe] and the registry of the three providers,
    whatever the workflows do: a result always carries at least one
    Word and comes from one of the three names; any other name fails
    with "provider '<name>' not found" before any effect; and JianYing
    options that [Validate] rejects fail as "fetch failed" around the
    ValidationError, before any effect. *)
Theorem transcribe_registered fetchE fetchJ fetchB providerName audioPath opts env tr :
  let run :=
    Asr.Transcribe (Asr.registered fetchE fetchJ fetchB) providerName audioPath opts env tr in
  (forall res,
      fst run = Ok res ->
      providerName ∈ ["elevenlabs"; "jianying"; "bijian"]
      /\ StandardResult.Words res <> [])
  /\ (providerName ∉ ["elevenlabs"; "jianying"; "bijian"] ->
      run = (Err (Errorf ("provider '" +:+ providerName +:+ "' not found")), tr))
  /\ (forall o o' e,
      providerName = "jianying" ->
      opts = Asr.JianYingOptions (Some o) ->
      JianYing.Validate o = (o', Some e) ->
      run = (Err (ErrorfWrap "fetch failed" e), tr)).
Proof.
  intros run. subst run. split; [|split].
  - intros res Hres.
    apply transcribe_ok in Hres as (p & raw & Hl & _ & Hp).
    rewrite registered_lookup in Hl.
    repeat case_bool_decide; try discriminate; injection Hl as <-; subst providerName;
      (split; [set_solver|]); cbn [Asr.Parse Asr.bijian Asr.jianying Asr.elevenlabs] in Hp.
    + unfold Bijian.Parse in Hp. destruct (as_object (Some raw)); [|discriminate].
      eapply bijian_parse_words; eassumption.
    + unfold JianYing.Parse in Hp. destruct (as_object (Some raw)); [|discriminate].
      eapply jianying_parse_words; eassumption.
    + unfold ElevenLabs.Parse in Hp. destruct (as_object (Some raw)); [|discriminate].
      eapply elevenlabs_parse_words; eassumption.
  - intros Hn. unfold Asr.Transcribe, Asr.Get. rewrite registered_lookup.
    repeat case_bool_decide; try reflexivity; exfalso; apply Hn; subst; set_solver.
  - intros o o' e -> -> Hv. unfold Asr.Transcribe, Asr.Get. rewrite registered_lookup.
    rewrite bool_decide_eq_false_2 by discriminate.
    rewrite bool_decide_eq_true_2 by reflexivity.
    cbn [Asr.Fetch Asr.jianying Asr.seen_by_jianying]. unfold bind.
    rewrite (jianying_fetch_invalid fetchJ audioPath o o' e env tr Hv). reflexivity.
Qed.
